(** * Retrospective bot: Slack slash command relayed to Airtable

    Shallow embedding of [slack_retro_bot_to_airtable.py] and the
    properties of its command parser, item formatter, duplicate check,
    background sweep and response builder.

    A Python [str] is modelled by a [string] holding its UTF-8 bytes.
    Splitting, joining, replacing and comparing work on the bytes as they
    do on the code points.  White space is the white space of Unicode,
    read in its UTF-8 form.  The case mappings of Unicode are too large to
    be written here: the program is given over any case mapping that acts
    on ASCII text as Python's does. *)

From Stdlib Require Import String Ascii List Bool Arith PeanoNat Lia.
From Stdlib Require Import Sorted OrdersEx RelationClasses DecimalString.
Import ListNotations.
Local Open Scope string_scope.
Local Open Scope list_scope.

(** ** Python [str] operations *)

Module PyStr.

Definition dquote : ascii := "034"%char.
Definition backslash : ascii := "092"%char.
Definition space : ascii := " "%char.
Definition newline : string := String "010"%char EmptyString.
Definition dq : string := String dquote EmptyString.

Definition is_upper (c : ascii) : bool :=
  ((65 <=? nat_of_ascii c) && (nat_of_ascii c <=? 90))%nat.

Definition is_lower (c : ascii) : bool :=
  ((97 <=? nat_of_ascii c) && (nat_of_ascii c <=? 122))%nat.

Definition lower_char (c : ascii) : ascii :=
  if is_upper c then ascii_of_nat (nat_of_ascii c + 32) else c.

Definition upper_char (c : ascii) : ascii :=
  if is_lower c then ascii_of_nat (nat_of_ascii c - 32) else c.

(** The text holds ASCII characters only: every byte is below 128. *)
Fixpoint is_ascii (s : string) : bool :=
  match s with
  | EmptyString => true
  | String c s' => (nat_of_ascii c <? 128)%nat && is_ascii s'
  end.

(** [s.lower()] for an ASCII text. *)
Fixpoint ascii_lower (s : string) : string :=
  match s with
  | EmptyString => EmptyString
  | String c s' => String (lower_char c) (ascii_lower s')
  end.

(** [s.capitalize()] for an ASCII text: first character upper-cased, the
    rest lower-cased. *)
Definition ascii_capitalize (s : string) : string :=
  match s with
  | EmptyString => EmptyString
  | String c s' => String (upper_char c) (ascii_lower s')
  end.

(** [c.isspace()] on ASCII: tab, line feed, vertical tab, form feed,
    carriage return, the four separators 28 to 31, and the space. *)
Definition is_space (c : ascii) : bool :=
  let n := nat_of_ascii c in
  (((9 <=? n) && (n <=? 13)) || ((28 <=? n) && (n <=? 32)))%nat.

(** The white space of two bytes: U+0085 and U+00A0. *)
Definition space2 (c1 c2 : ascii) : bool :=
  Ascii.eqb c1 "194" && (Ascii.eqb c2 "133" || Ascii.eqb c2 "160").

(** The white space of three bytes: U+1680, U+2000 to U+200A, U+2028,
    U+2029, U+202F, U+205F and U+3000. *)
Definition space3 (c1 c2 c3 : ascii) : bool :=
  (Ascii.eqb c1 "225" && Ascii.eqb c2 "154" && Ascii.eqb c3 "128")
  || (Ascii.eqb c1 "226" && Ascii.eqb c2 "128"
      && (((128 <=? nat_of_ascii c3) && (nat_of_ascii c3 <=? 138))%nat
          || Ascii.eqb c3 "168" || Ascii.eqb c3 "169" || Ascii.eqb c3 "175"))
  || (Ascii.eqb c1 "226" && Ascii.eqb c2 "129" && Ascii.eqb c3 "159")
  || (Ascii.eqb c1 "227" && Ascii.eqb c2 "128" && Ascii.eqb c3 "128").

(** What follows the white space character the text starts with, when
    it starts with one. *)
Definition skip_space (s : string) : option string :=
  match s with
  | EmptyString => None
  | String c1 s1 =>
      if is_space c1 then Some s1
      else
        match s1 with
        | EmptyString => None
        | String c2 s2 =>
            if space2 c1 c2 then Some s2
            else
              match s2 with
              | EmptyString => None
              | String c3 s3 => if space3 c1 c2 c3 then Some s3 else None
              end
        end
  end.

(** The text is one white space character. *)
Definition is_space_code (s : string) : bool :=
  match s with
  | String c1 EmptyString => is_space c1
  | String c1 (String c2 EmptyString) => space2 c1 c2
  | String c1 (String c2 (String c3 EmptyString)) => space3 c1 c2 c3
  | _ => false
  end.

Fixpoint lstrip (s : string) : string :=
  match s with
  | EmptyString => EmptyString
  | String c1 s1 =>
      if is_space c1 then lstrip s1
      else
        match s1 with
        | EmptyString => s
        | String c2 s2 =>
            if space2 c1 c2 then lstrip s2
            else
              match s2 with
              | EmptyString => s
              | String c3 s3 => if space3 c1 c2 c3 then lstrip s3 else s
              end
        end
  end.

(** From the end: what is kept of the rest is known, and the character
    goes with it unless the two make just one white space character. *)
Fixpoint rstrip (s : string) : string :=
  match s with
  | EmptyString => EmptyString
  | String c s' =>
      if is_space_code (String c (rstrip s')) then EmptyString
      else String c (rstrip s')
  end.

(** [s.strip()] *)
Definition strip (s : string) : string := rstrip (lstrip s).

(** [re.sub(' +', ' ', s)]: every maximal run of spaces becomes one space. *)
Fixpoint collapse_spaces (s : string) : string :=
  match s with
  | EmptyString => EmptyString
  | String c s' =>
      if Ascii.eqb c space then
        match s' with
        | String d _ => if Ascii.eqb d space then collapse_spaces s'
                        else String space (collapse_spaces s')
        | EmptyString => String space EmptyString
        end
      else String c (collapse_spaces s')
  end.

(** [s.split(' ')], as its first component and the remaining ones: the
    result of [split] with a separator is never the empty list. *)
Fixpoint split_space (s : string) : string * list string :=
  match s with
  | EmptyString => (EmptyString, [])
  | String c s' =>
      let (h, t) := split_space s' in
      if Ascii.eqb c space then (EmptyString, h :: t) else (String c h, t)
  end.

(** [sep.join(parts)] *)
Definition join (sep : string) (parts : list string) : string :=
  String.concat sep parts.

(** [s.replace(old, new)] for a pattern [old] of one character. *)
Fixpoint replace (old : ascii) (new : string) (s : string) : string :=
  match s with
  | EmptyString => EmptyString
  | String c s' =>
      if Ascii.eqb c old then new ++ replace old new s'
      else String c (replace old new s')
  end.

(** [x in s] for a character [x]. *)
Fixpoint contains (x : ascii) (s : string) : bool :=
  match s with
  | EmptyString => false
  | String c s' => Ascii.eqb c x || contains x s'
  end.

(** [a < b] on strings: lexicographic on code points. *)
Definition ltb (a b : string) : bool :=
  match String_as_OT.compare a b with
  | Lt => true
  | _ => false
  end.

(** [x in t] for a tuple of strings. *)
Definition mem (x : string) (t : list string) : bool :=
  existsb (String.eqb x) t.

(** Truth value of a string: the empty string is false. *)
Definition truthy (s : string) : bool :=
  match s with EmptyString => false | _ => true end.

End PyStr.

(** The case mappings [s.lower()] and [s.capitalize()].  They follow the
    Unicode character database, which is not part of the program: they
    are taken as given, with what Python grants for them: on ASCII text
    they are the mappings of the letters A to Z, and lowering twice is
    lowering once. *)
Class CaseMapping := {
  str_lower : string -> string;
  str_capitalize : string -> string;
  str_lower_ascii :
    forall s, PyStr.is_ascii s = true -> str_lower s = PyStr.ascii_lower s;
  str_capitalize_ascii :
    forall s, PyStr.is_ascii s = true ->
              str_capitalize s = PyStr.ascii_capitalize s;
  str_lower_idem : forall s, str_lower (str_lower s) = str_lower s
}.

(** ** Module constants (lines 16-31) *)

Definition _GOOD_CMDS : list string := ["good"].
Definition _BAD_CMDS : list string := ["bad"].
Definition _TRY_CMDS : list string := ["try"].
Definition _CATEGORY_CMDS : list string := _GOOD_CMDS ++ _BAD_CMDS ++ _TRY_CMDS.
Definition _NEW_CMDS : list string := ["new"].
Definition _LIST_CMDS : list string := ["list"].
Definition _HELP_CMDS : list string := ["help"; "?"].
Definition _ALL_CMDS : list string :=
  _CATEGORY_CMDS ++ _NEW_CMDS ++ _LIST_CMDS ++ _HELP_CMDS.

Definition _BOT_NAME : string := "Retrospective Bot".
Definition _AIRTABLE_RETRO_ITEMS_TABLE_ID : string := "Items".
Definition _AIRTABLE_RETRO_ITEMS_CURRENT_VIEW : string := "Current View".

(** ** Command parser *)

(** Lines 81-82: the text is stripped, then runs of spaces are collapsed. *)
Definition full_text_of (text : string) : string :=
  PyStr.collapse_spaces (PyStr.strip text).

(** [_get_command_action_and_params] (lines 137-142). *)
Definition _get_command_action_and_params {cm : CaseMapping}
    (command_text : string) : string * string :=
  let (first, rest) := PyStr.split_space command_text in
  let command_action := str_lower first in
  let command_params := PyStr.join " " rest in
  (command_action, command_params).

(** Lines 85-97 of [handle_slack_notification]: the action and the
    parameters of a command, from the slash command and the cleaned text. *)
Definition command_action_and_params {cm : CaseMapping}
    (slash_command command_text : string) : string * string :=
  let (command_action, command_params) :=
    if PyStr.mem slash_command _CATEGORY_CMDS
    then (slash_command, command_text)
    else _get_command_action_and_params command_text in
  let command_action :=
    if negb (PyStr.mem command_action _ALL_CMDS)
    then hd EmptyString _HELP_CMDS
    else command_action in
  (command_action, command_params).
(** ** Data model *)

(** The fields of a stored retrospective item.  The record stands for
    an item that carries its category and its object, as the items the
    program writes do; an answer of the store in which one of them is
    missing is not represented. *)
Record fields := {
  Category : string;
  Object : string;
  Creator : string;
  Created_At : string;
  Reviewed_At : option string
}.

(** A record of the store: [{'id': ..., 'fields': {...}}]. *)
Record item := { id : string; item_fields : fields }.

(** A Slack message attachment. *)
Record attachment := { title : string; text : string; color : string }.

(** What the helpers return: a string, or a pair of a string and a list
    of attachments. *)
Inductive response :=
| Text (s : string)
| WithAttachments (s : string) (attachments : list attachment).

(** The body built by [_format_json_response]. *)
Record slack_message := {
  response_type : string;
  msg_text : string;
  msg_attachments : list attachment
}.

(** The dictionary posted to the response URL by the sweep; the first
    branch of the sweep posts no ['attachments'] entry. *)
Record follow_up := {
  fu_response_type : string;
  fu_text : string;
  fu_attachments : option (list attachment)
}.

Inductive http_response :=
| TextResponse (body : string) (status : nat)
| JsonResponse (body : slack_message) (status : nat).

Inductive exn :=
| KeyError (key : string)
| TypeError
| BadRequestKeyError (key : string)
| Abort (status : nat)
| NoReturnValue.

(** A Python dictionary with string keys and values, and [d[k]]. *)
Fixpoint dict_get (d : list (string * string)) (k : string) : option string :=
  match d with
  | [] => None
  | (k', v) :: d' => if String.eqb k' k then Some v else dict_get d' k
  end.

(** The calls made on the Airtable client, as they are issued. *)
Inductive call :=
| Get (table view : string) (filter_by_formula : option string)
| Create (table : string) (data : fields)
| Update (table record_id : string) (reviewed_at : string).

(** The Airtable client, an external service.  [airtable_get] is
    [client.get(table, view=..., filter_by_formula=...).get('records')]:
    [None] when the answer has no ['records'] entry.  [airtable_create]
    gives the created record, or nothing.  [airtable_update] sets
    ['Reviewed At'], the only field this program updates. *)
Class Airtable (S : Type) := {
  airtable_get : S -> string -> string -> option string -> option (list item);
  airtable_create : S -> string -> fields -> S * option item;
  airtable_update : S -> string -> string -> string -> S
}.

(** ** [sorted] and [itertools.groupby] *)

Section SortGroup.
Context {A K : Type}.
Variable ltb : K -> K -> bool.
Variable eqb : K -> K -> bool.
Variable key : A -> K.

(** [x] goes in front of the first element whose key is not smaller:
    equal keys keep the order in which they came. *)
Fixpoint insert_by (x : A) (l : list A) : list A :=
  match l with
  | [] => [x]
  | y :: l' => if ltb (key y) (key x) then y :: insert_by x l' else x :: l
  end.

(** [sorted(l, key=key)]: a stable sort. *)
Definition sorted (l : list A) : list A := fold_right insert_by [] l.

(** The group of key [k] being read, with its elements [acc] so far in
    reverse. *)
Fixpoint groupby_from (k : K) (acc : list A) (l : list A)
  : list (K * list A) :=
  match l with
  | [] => [(k, rev acc)]
  | x :: l' =>
      if eqb (key x) k then groupby_from k (x :: acc) l'
      else (k, rev acc) :: groupby_from (key x) [x] l'
  end.

(** [groupby(l, key)]: the runs of consecutive elements of equal key. *)
Definition groupby (l : list A) : list (K * list A) :=
  match l with
  | [] => []
  | x :: l' => groupby_from (key x) [x] l'
  end.

(** [x] does not come after [y]; [a] comes before [b]; the elements of
    key [k], and the others. *)
Definition key_le (x y : A) : Prop := ltb (key y) (key x) = false.
Definition key_lt (a b : K) : Prop := ltb a b = true.
Definition with_key (k : K) (x : A) : bool := eqb (key x) k.
Definition without_key (k : K) (x : A) : bool := negb (eqb (key x) k).
End SortGroup.

(** ** Item formatter *)

Definition category_of (it : item) : string := Category (item_fields it).
Definition object_of (it : item) : string := Object (item_fields it).

Definition colors_by_category : list (string * string) :=
  [("good", "good"); ("bad", "danger"); ("try", "warning")].

(** The bullet U+2022 in UTF-8, and a space. *)
Definition bullet : string :=
  String "226"%char (String "128"%char (String "162"%char " ")).

(** A list comprehension whose body may raise: the first exception ends it. *)
Fixpoint comprehension {X Y : Type} (f : X -> exn + Y) (l : list X)
  : exn + list Y :=
  match l with
  | [] => inr []
  | x :: l' =>
      match f x with
      | inl e => inl e
      | inr y =>
          match comprehension f l' with
          | inl e => inl e
          | inr ys => inr (y :: ys)
          end
      end
  end.

Definition attachment_of_group {cm : CaseMapping} (g : string * list item)
  : exn + attachment :=
  let (category, items_in_category) := g in
  let title := str_capitalize category in
  let text :=
    PyStr.join (PyStr.newline ++ PyStr.newline)%string
      (map (fun it => (bullet ++ object_of it)%string) items_in_category) in
  match dict_get colors_by_category category with
  | Some color => inr {| title := title; text := text; color := color |}
  | None => inl (KeyError category)
  end.

(** The colour the specification gives for each category. *)
Definition expected_color (category : string) : string :=
  if String.eqb category "good" then "good"
  else if String.eqb category "bad" then "danger"
  else if String.eqb category "try" then "warning"
  else EmptyString.

(** The attachment the specification describes for the category
    [category] of the items [items]: the items of that category, in the
    order in which they were given, one bullet each, a blank line between. *)
Definition expected_attachment {cm : CaseMapping} (items : list item)
    (category : string) : attachment :=
  {| title := str_capitalize category;
     text :=
       PyStr.join (PyStr.newline ++ PyStr.newline)%string
         (map (fun it => (bullet ++ object_of it)%string)
            (filter (fun it => String.eqb (category_of it) category) items));
     color := expected_color category |}.

(** [_get_retrospective_items_attachments] (lines 192-207). *)
Definition _get_retrospective_items_attachments {cm : CaseMapping}
    (retrospective_items : list item) : exn + list attachment :=
  let retrospective_items := sorted PyStr.ltb category_of retrospective_items in
  let items_by_category := groupby String.eqb category_of retrospective_items in
  comprehension attachment_of_group items_by_category.

(** *** The attachments as the specification words them

    Written again from the words of the specification, with the three
    categories, their titles and their colours spelled out, and nothing
    taken from the definitions above. *)

Definition specified_title (category : string) : string :=
  if String.eqb category "good" then "Good"
  else if String.eqb category "bad" then "Bad"
  else if String.eqb category "try" then "Try"
  else EmptyString.

(** Each text after a bullet and a space, a blank line between two. *)
Fixpoint bulleted (objects : list string) : string :=
  match objects with
  | [] => EmptyString
  | o :: rest =>
      let line :=
        (String "226"%char (String "128"%char (String "162"%char
           (String " "%char o))))%string in
      match rest with
      | [] => line
      | _ :: _ =>
          (line ++ String "010"%char (String "010"%char (bulleted rest)))%string
      end
  end.

(** The objects of the items of a category, in the order of the items. *)
Definition objects_of_category (items : list item) (category : string)
  : list string :=
  map (fun it => Object (item_fields it))
    (filter (fun it => String.eqb (Category (item_fields it)) category) items).

Definition specified_attachment (items : list item) (category : string)
  : attachment :=
  {| title := specified_title category;
     text := bulleted (objects_of_category items category);
     color := expected_color category |}.

(** The categories that occur among the items, in ascending order. *)
Definition occurring_categories (items : list item) : list string :=
  filter
    (fun category =>
       existsb (fun it => String.eqb (Category (item_fields it)) category)
         items)
    ["bad"; "good"; "try"]%string.

(** The category of the item is one of the three. *)
Definition known_category (it : item) : Prop :=
  In (Category (item_fields it)) ["good"; "bad"; "try"]%string.

(** ** Configuration (lines 27-47) *)

Local Open Scope string_scope.

(** The environment of the process: the three variables the program
    reads with [os.getenv], and the name of the function on the hosting
    platform, which the task decorator reads. *)
Record config := {
  _SLACK_RETRO_TOKEN : option string;
  _AIRTABLE_RETRO_BASE_ID : option string;
  _AIRTABLE_RETRO_API_KEY : option string;
  _AWS_LAMBDA_FUNCTION_NAME : option string
}.

(** [not v] for the value of an environment variable: unset or empty. *)
Definition env_not (v : option string) : bool :=
  match v with
  | Some s => negb (PyStr.truthy s)
  | None => true
  end.

Definition _MISSING_ENV_VARIABLES (cfg : config) : list string :=
  ((if env_not (_SLACK_RETRO_TOKEN cfg) then ["SLACK_RETRO_TOKEN"] else [])
   ++ (if env_not (_AIRTABLE_RETRO_BASE_ID cfg) then ["AIRTABLE_RETRO_BASE_ID"] else [])
   ++ (if env_not (_AIRTABLE_RETRO_API_KEY cfg) then ["AIRTABLE_RETRO_API_KEY"] else []))%list.

(** The text [format] gives for a list of these names. *)
Definition repr_names (names : list string) : string :=
  "[" ++ PyStr.join ", " (map (fun n => "'" ++ n ++ "'") names) ++ "]".

Definition _STEPS_TO_FINISH_SETUP (cfg : config) : option string :=
  match _MISSING_ENV_VARIABLES cfg with
  | [] => None
  | missing =>
      Some ("Need to setup the following AWS Lambda function env variables:"
            ++ PyStr.newline ++ repr_names missing)
  end.

(** ** Messages *)

Definition reserved_term_message (item_object : string) : string :=
  "Sorry, but *" ++ _BOT_NAME ++ "* can't save *" ++ item_object
  ++ "* because it's a reserved term.".

Definition already_added_message : string :=
  "This retrospective item has already been added!".

Definition unable_to_save_message : string :=
  "Sorry, but *" ++ _BOT_NAME ++ "* was unable to save the retrospective item.".

Definition did_you_mean_message (item_object : string) : string :=
  "Oops, did you mean " ++ PyStr.dq ++ "/retro good " ++ item_object
  ++ PyStr.dq ++ "?".

Definition help_message (command : string) : string :=
  PyStr.join PyStr.newline [
    "*" ++ command ++ " good <item>* to save an item in the " ++ PyStr.dq
        ++ "good" ++ PyStr.dq ++ " list";
    "*" ++ command ++ " bad <item>* to save an item in the " ++ PyStr.dq
        ++ "bad" ++ PyStr.dq ++ " list";
    "*" ++ command ++ " try <item>* to save an item in the " ++ PyStr.dq
        ++ "try" ++ PyStr.dq ++ " list";
    "*" ++ command
        ++ " list* to see the different lists saved for the current sprint";
    "*" ++ command ++ " new* to start a fresh list for the new scrum sprint";
    "*" ++ command ++ " help* to see this message"
  ].

(** The formula of the duplicate check (lines 158-159).  In the source the
    replacement is written with a backslash in front of the quote inside a
    string literal in single quotes: that literal is the string of one
    character, the double quote. *)
Definition escape_quotes (item_object : string) : string :=
  PyStr.replace PyStr.dquote (String PyStr.dquote EmptyString) item_object.

Definition duplicate_check_formula (category item_object : string) : string :=
  "AND(Category = " ++ PyStr.dq ++ category ++ PyStr.dq
  ++ ", Object = " ++ PyStr.dq ++ escape_quotes item_object ++ PyStr.dq ++ ")".

(** A formula that compares [Object] with the text [item_object] exactly:
    inside the quoted literal every double quote is written with a
    backslash in front. *)
Definition quoted_exact_match_formula (category item_object : string) : string :=
  "AND(Category = " ++ PyStr.dq ++ category ++ PyStr.dq
  ++ ", Object = " ++ PyStr.dq
  ++ PyStr.replace PyStr.dquote
       (String PyStr.backslash (String PyStr.dquote EmptyString)) item_object
  ++ PyStr.dq ++ ")".

(** [_format_json_response] (lines 250-266). *)
Definition _format_json_response (r : response) (in_channel : bool)
  : http_response :=
  let (text, attachments) :=
    match r with
    | Text s => (s, None)
    | WithAttachments s atts => (s, Some atts)
    end in
  let response_dict := {|
    response_type := if in_channel then "in_channel" else "ephemeral";
    msg_text := text;
    msg_attachments :=
      match attachments with
      | Some (a :: atts) => a :: atts
      | _ => []
      end
  |} in
  JsonResponse response_dict 200.

(** [request.form[k]]: the first value of the key, or a bad request. *)
Fixpoint form_lookup (form : list (string * string)) (k : string)
  : exn + string :=
  match form with
  | [] => inl (BadRequestKeyError k)
  | (k', v) :: form' => if String.eqb k' k then inr v else form_lookup form' k
  end.

(** Truth value of what [.get('records')] gives: [None] and the empty
    list are false. *)
Definition records_truthy (records : option (list item)) : bool :=
  match records with
  | Some (_ :: _) => true
  | _ => false
  end.

(** ** The program, over a client and the world it acts on *)

Section Bot.
Context {S : Type} {client : Airtable S} {cm : CaseMapping}.

(** The store behind the client, the calls issued on the client, the
    notifications posted to response URLs, and the sweeps handed to the
    task runner, each list in the order of the events. *)
Record world := {
  store : S;
  calls : list call;
  posted : list (string * follow_up);
  tasks : list string
}.

(** A computation changes the world and returns a value or raises. *)
Definition M (X : Type) : Type := world -> world * (exn + X).

Definition ret {X} (x : X) : M X := fun w => (w, inr x).
Definition raise {X} (e : exn) : M X := fun w => (w, inl e).
Definition lift {X} (r : exn + X) : M X := fun w => (w, r).
Definition bind {X Y} (m : M X) (k : X -> M Y) : M Y :=
  fun w =>
    match m w with
    | (w', inl e) => (w', inl e)
    | (w', inr x) => k x w'
    end.

Notation "x <- m ;; k" := (bind m (fun x => k))
  (at level 61, m at next level, right associativity).
Notation "m ;;; k" := (bind m (fun _ => k))
  (at level 61, right associativity).

Definition log (c : call) (w : world) : world :=
  {| store := store w; calls := (calls w ++ [c])%list;
     posted := posted w; tasks := tasks w |}.

Definition client_get (table view : string) (formula : option string)
  : M (option (list item)) :=
  fun w => (log (Get table view formula) w,
            inr (airtable_get (store w) table view formula)).

Definition client_create (table : string) (data : fields)
  : M (option item) :=
  fun w =>
    let (s', r) := airtable_create (store w) table data in
    ({| store := s'; calls := (calls w ++ [Create table data])%list;
        posted := posted w; tasks := tasks w |}, inr r).

Definition client_update (table record_id reviewed_at : string) : M unit :=
  fun w =>
    ({| store := airtable_update (store w) table record_id reviewed_at;
        calls := (calls w ++ [Update table record_id reviewed_at])%list;
        posted := posted w; tasks := tasks w |}, inr tt).

(** [requests.post(response_url, json=payload)] *)
Definition requests_post (response_url : string) (payload : follow_up)
  : M unit :=
  fun w =>
    ({| store := store w; calls := calls w;
        posted := (posted w ++ [(response_url, payload)])%list;
        tasks := tasks w |}, inr tt).

(** The sweep is handed to the task runner of the hosting platform. *)
Definition run_as_task (response_url : string) : M unit :=
  fun w =>
    ({| store := store w; calls := calls w; posted := posted w;
        tasks := (tasks w ++ [response_url])%list |}, inr tt).

Fixpoint for_each {X} (l : list X) (body : X -> M unit) : M unit :=
  match l with
  | [] => ret tt
  | x :: l' => body x ;;; for_each l' body
  end.

(** [_add_retrospective_item_and_get_response] (lines 145-175); [now]
    is [datetime.utcnow().isoformat(timespec='milliseconds')]. *)
Definition _add_retrospective_item_and_get_response
    (now category item_object user_name : string) : M response :=
  if PyStr.mem (str_lower item_object) _ALL_CMDS then
    ret (Text (reserved_term_message item_object))
  else
    let item_object := str_capitalize item_object in
    let category := str_lower category in
    existing_item <-
      client_get _AIRTABLE_RETRO_ITEMS_TABLE_ID
        _AIRTABLE_RETRO_ITEMS_CURRENT_VIEW
        (Some (duplicate_check_formula category item_object)) ;;
    if records_truthy existing_item then
      ret (Text already_added_message)
    else
      item_airtable_record <-
        client_create _AIRTABLE_RETRO_ITEMS_TABLE_ID {|
          Category := str_lower category;
          Object := item_object;
          Creator := user_name;
          Created_At := now ++ "Z";
          Reviewed_At := None
        |} ;;
      match item_airtable_record with
      | None => ret (Text unable_to_save_message)
      | Some record =>
          attachments <- lift (_get_retrospective_items_attachments [record]) ;;
          ret (WithAttachments "New retrospective item:" attachments)
      end.

(** [_get_retrospective_items_response] (lines 178-189). *)
Definition _get_retrospective_items_response : M response :=
  items <-
    client_get _AIRTABLE_RETRO_ITEMS_TABLE_ID
      _AIRTABLE_RETRO_ITEMS_CURRENT_VIEW None ;;
  match items with
  | Some (i :: items') =>
      attachments <- lift (_get_retrospective_items_attachments (i :: items')) ;;
      ret (WithAttachments "Retrospective items:" attachments)
  | _ => ret (Text "No retrospective items yet.")
  end.

(** [_async_mark_retrospective_items_as_reviewed] (lines 216-247).  The
    text of the last notification is a conditional expression whose first
    branch is the whole concatenation: [A + B if attachments else ''] is
    [(A + B) if attachments else '']. *)
Definition _async_mark_retrospective_items_as_reviewed
    (now response_url : string) : M unit :=
  items <-
    client_get _AIRTABLE_RETRO_ITEMS_TABLE_ID
      _AIRTABLE_RETRO_ITEMS_CURRENT_VIEW None ;;
  match items with
  | Some (i :: items') =>
      let new_params := now ++ "Z" in
      for_each (i :: items') (fun item =>
        client_update _AIRTABLE_RETRO_ITEMS_TABLE_ID (id item) new_params) ;;;
      remaining_items <-
        client_get _AIRTABLE_RETRO_ITEMS_TABLE_ID
          _AIRTABLE_RETRO_ITEMS_CURRENT_VIEW None ;;
      attachments <-
        match remaining_items with
        | Some l => lift (_get_retrospective_items_attachments l)
        | None => raise TypeError
        end ;;
      requests_post response_url {|
        fu_response_type := "in_channel";
        fu_text :=
          match attachments with
          | _ :: _ =>
              "All retrospective items marked as reviewed!"
              ++ (PyStr.newline
                  ++ "Here are the remaining 'try' items to complete:")
          | [] => EmptyString
          end;
        fu_attachments := Some attachments
      |}
  | _ =>
      requests_post response_url {|
        fu_response_type := "in_channel";
        fu_text := "All retrospective were already marked as reviewed!";
        fu_attachments := None
      |}
  end.

(** Modelled from the spec: the decorator [task] comes from zappa, which
    is not in the repository.  The specification has the sweep run as a
    background task that the dispatcher does not wait for: on the hosting
    platform, where [AWS_LAMBDA_FUNCTION_NAME] is set, the call of the
    decorated function hands the sweep to the task runner and returns.
    Where that name is not set (the local run of the last lines of the
    file) the decorator calls the function itself: the sweep runs before
    the reply, and what it raises is raised by the call. *)
Definition call_task (cfg : config) (now response_url : string) : M unit :=
  if env_not (_AWS_LAMBDA_FUNCTION_NAME cfg)
  then _async_mark_retrospective_items_as_reviewed now response_url
  else run_as_task response_url.

(** [_mark_retrospective_items_as_reviewed] (lines 210-213). *)
Definition _mark_retrospective_items_as_reviewed
    (cfg : config) (now response_url : string) : M response :=
  call_task cfg now response_url ;;;
  ret (Text "Marking all current retrospective items as reviewed...").

(** [handle_slack_notification] (lines 62-134).  The setup message, when
    there is one, is not empty: its truth value is true. *)
Definition handle_slack_notification
    (cfg : config) (now : string) (form : list (string * string))
  : M http_response :=
  match _STEPS_TO_FINISH_SETUP cfg with
  | Some steps => ret (TextResponse steps 200)
  | None =>
      token <- lift (form_lookup form "token") ;;
      if negb (match _SLACK_RETRO_TOKEN cfg with
               | Some secret => String.eqb token secret
               | None => false
               end)
      then raise (Abort 401)
      else
        user_name <- lift (form_lookup form "user_name") ;;
        slash_command <- lift (form_lookup form "command") ;;
        response_url <- lift (form_lookup form "response_url") ;;
        text <- lift (form_lookup form "text") ;;
        let command_text := full_text_of text in
        let (command_action, command_params) :=
          command_action_and_params slash_command command_text in
        if PyStr.mem command_action _CATEGORY_CMDS then
          response <-
            _add_retrospective_item_and_get_response
              now command_action command_params user_name ;;
          ret (_format_json_response response true)
        else if PyStr.mem command_action _LIST_CMDS then
          response <- _get_retrospective_items_response ;;
          ret (_format_json_response response true)
        else if PyStr.mem command_action _NEW_CMDS then
          response <-
            (if PyStr.truthy command_params
             then ret (Text (did_you_mean_message command_params))
             else _mark_retrospective_items_as_reviewed cfg now response_url) ;;
          ret (_format_json_response response true)
        else if PyStr.mem command_action _HELP_CMDS
                || String.eqb command_text EmptyString
                || String.eqb command_text " " then
          ret (_format_json_response (Text (help_message slash_command)) false)
        else raise NoReturnValue
  end.

End Bot.

Arguments world S : clear implicits.
Arguments M S X : clear implicits.

(** ** A reference store *)

Module RefStore.

(** Modelled from the spec: the record store is an external service, of
    which the repository holds only the calls.  One table, ["Items"],
    with one view, ["Current View"], which shows the items that have no
    review date ("the set of items not yet marked reviewed").  [get]
    answers with the records of the view that satisfy the formula;
    [create] stores a record under a fresh identifier and gives it back;
    [update] sets the review date of the record with the given
    identifier.  The formulas it reads are the exact matches on category
    and object whose literals are well quoted.  The specification says
    nothing of a call on another table or view, or with another formula:
    the service refuses such a call; here it is given an answer that has
    no ['records'], and no property below rests on that answer. *)
Record t := { rows : list item; next_id : nat }.

Definition empty : t := {| rows := []; next_id := 0 |}.

(** [s] without the prefix [p], when it starts with it. *)
Fixpoint strip_prefix (p s : string) : option string :=
  match p, s with
  | EmptyString, _ => Some s
  | String a p', String b s' =>
      if Ascii.eqb a b then strip_prefix p' s' else None
  | String _ _, EmptyString => None
  end.

(** A string literal, read after its opening double quote: the text up
    to the closing double quote, and what follows it.  A backslash
    stands in front of a character taken as it is. *)
Fixpoint read_literal (s : string) : option (string * string) :=
  match s with
  | EmptyString => None
  | String c s' =>
      if Ascii.eqb c PyStr.dquote then Some (EmptyString, s')
      else if Ascii.eqb c PyStr.backslash then
        match s' with
        | EmptyString => None
        | String d s'' =>
            match read_literal s'' with
            | Some (lit, rest) => Some (String d lit, rest)
            | None => None
            end
        end
      else
        match read_literal s' with
        | Some (lit, rest) => Some (String c lit, rest)
        | None => None
        end
  end.

(** The formulas the store reads: the conjunction of an exact match on
    the category and an exact match on the object. *)
Definition read_formula (formula : string) : option (string * string) :=
  match strip_prefix ("AND(Category = " ++ PyStr.dq) formula with
  | None => None
  | Some after_open =>
      match read_literal after_open with
      | None => None
      | Some (category, after_category) =>
          match strip_prefix (", Object = " ++ PyStr.dq) after_category with
          | None => None
          | Some after_comma =>
              match read_literal after_comma with
              | None => None
              | Some (object, after_object) =>
                  if String.eqb after_object ")" then Some (category, object)
                  else None
              end
          end
      end
  end.

Definition in_current_view (it : item) : bool :=
  match Reviewed_At (item_fields it) with
  | None => true
  | Some _ => false
  end.

Definition matches (category object : string) (it : item) : bool :=
  String.eqb (category_of it) category && String.eqb (object_of it) object.

Definition known (table view : string) : bool :=
  String.eqb table "Items" && String.eqb view "Current View".

Definition get (s : t) (table view : string) (formula : option string)
  : option (list item) :=
  if known table view then
    let current := filter in_current_view (rows s) in
    match formula with
    | None => Some current
    | Some f =>
        match read_formula f with
        | Some (category, object) =>
            Some (filter (matches category object) current)
        | None => None
        end
    end
  else None.

Definition fresh_id (n : nat) : string :=
  "rec" ++ NilEmpty.string_of_uint (Nat.to_uint n).

Definition create (s : t) (table : string) (data : fields)
  : t * option item :=
  if String.eqb table "Items" then
    let it := {| id := fresh_id (next_id s); item_fields := data |} in
    ({| rows := (rows s ++ [it])%list; next_id := Datatypes.S (next_id s) |},
     Some it)
  else (s, None).

Definition review (record_id reviewed_at : string) (it : item) : item :=
  if String.eqb (id it) record_id then
    {| id := id it;
       item_fields := {|
         Category := Category (item_fields it);
         Object := Object (item_fields it);
         Creator := Creator (item_fields it);
         Created_At := Created_At (item_fields it);
         Reviewed_At := Some reviewed_at |} |}
  else it.

Definition update (s : t) (table record_id reviewed_at : string) : t :=
  if String.eqb table "Items" then
    {| rows := map (review record_id reviewed_at) (rows s);
       next_id := next_id s |}
  else s.

#[global] Instance client : Airtable t := {
  airtable_get := get;
  airtable_create := create;
  airtable_update := update
}.

(** A world around a store, before anything has happened. *)
Definition fresh_world (s : t) : world t :=
  {| store := s; calls := []; posted := []; tasks := [] |}.

End RefStore.

(** ** The root endpoint (lines 50-59) *)

(** The heavy exclamation mark U+2757 with the variation selector U+FE0F,
    and the check mark U+2705, in UTF-8. *)
Definition exclamation_mark : string :=
  String "226"%char (String "157"%char (String "151"%char
    (String "239"%char (String "184"%char (String "143"%char EmptyString))))).

Definition check_mark : string :=
  String "226"%char (String "156"%char (String "133"%char EmptyString)).

(** The page, around the status; the literal spans three lines. *)
Definition index_page (status : string) : string :=
  "Integration to store /retro Slack command in Airtable.<br>"
  ++ PyStr.newline ++ "        Status: " ++ status ++ "<br>"
  ++ PyStr.newline
  ++ "        Link Slack webhook to post json to /handle_slack_notification".

(** [index] *)
Definition index (cfg : config) : string * nat :=
  let status :=
    match _STEPS_TO_FINISH_SETUP cfg with
    | Some steps => exclamation_mark ++ steps
    | None => check_mark
    end in
  (index_page status, 200).

(** ** Shapes of texts, forms and answers, for the statements *)

(** The encodings of the white space characters of Unicode, one by one:
    U+0009 to U+000D, U+001C to U+0020, U+0085, U+00A0, U+1680, U+2000
    to U+200A, U+2028, U+2029, U+202F, U+205F, U+3000. *)
Definition white_space : list string :=
  let one (a : ascii) := String a EmptyString in
  let two (a b : ascii) := String a (String b EmptyString) in
  let three (a b c : ascii) := String a (String b (String c EmptyString)) in
  [ one "009"; one "010"; one "011"; one "012"; one "013";
    one "028"; one "029"; one "030"; one "031"; one "032";
    two "194" "133"; two "194" "160";
    three "225" "154" "128";
    three "226" "128" "128"; three "226" "128" "129"; three "226" "128" "130";
    three "226" "128" "131"; three "226" "128" "132"; three "226" "128" "133";
    three "226" "128" "134"; three "226" "128" "135"; three "226" "128" "136";
    three "226" "128" "137"; three "226" "128" "138";
    three "226" "128" "168"; three "226" "128" "169"; three "226" "128" "175";
    three "226" "129" "159";
    three "227" "128" "128" ]%char.

(** [p] is the beginning of [s]; [p] is the end of [s]. *)
Fixpoint begins_with (p s : string) : bool :=
  match p, s with
  | EmptyString, _ => true
  | String a p', String b s' => Ascii.eqb a b && begins_with p' s'
  | String _ _, EmptyString => false
  end.

Fixpoint finishes_with (p s : string) : bool :=
  String.eqb p s
  || match s with
     | EmptyString => false
     | String _ s' => finishes_with p s'
     end.

(** [s] without its first [n] bytes. *)
Fixpoint drop (n : nat) (s : string) : string :=
  match n, s with
  | Datatypes.S n', String _ s' => drop n' s'
  | _, _ => s
  end.

(** The text is empty or made of white space characters only: it is read
    one white space character after the other, to its end. *)
Fixpoint blank_within (n : nat) (s : string) : bool :=
  match s with
  | EmptyString => true
  | String _ _ =>
      match n with
      | 0 => false
      | Datatypes.S n' =>
          existsb
            (fun code =>
               begins_with code s
               && blank_within n' (drop (String.length code) s))
            white_space
      end
  end.

Definition blank (s : string) : bool := blank_within (String.length s) s.

(** The text starts, or ends, with a white space character. *)
Definition starts_with_space (s : string) : bool :=
  existsb (fun code => begins_with code s) white_space.

Definition ends_with_space (s : string) : bool :=
  existsb (fun code => finishes_with code s) white_space.

(** Some end of the text is one white space character. *)
Fixpoint ends_with_code (s : string) : bool :=
  match s with
  | EmptyString => false
  | String _ s' => PyStr.is_space_code s || ends_with_code s'
  end.

(** Two spaces in a row somewhere in the text. *)
Fixpoint has_double_space (s : string) : bool :=
  match s with
  | EmptyString => false
  | String c s' =>
      match s' with
      | EmptyString => false
      | String d _ =>
          (Ascii.eqb c PyStr.space && Ascii.eqb d PyStr.space)
          || has_double_space s'
      end
  end.

Fixpoint has_key (form : list (string * string)) (k : string) : bool :=
  match form with
  | [] => false
  | (k', _) :: form' => String.eqb k' k || has_key form' k
  end.

(** The first field the handler reads that the form does not hold. *)
Definition first_missing (form : list (string * string)) : option string :=
  find (fun k => negb (has_key form k))
    ["token"; "user_name"; "command"; "response_url"; "text"].

(** The settings are complete and the form holds the five fields, the
    token being the configured one: the request goes to the dispatcher. *)
Definition accepted (cfg : config) (form : list (string * string))
    (user_name slash_command response_url text : string) : Prop :=
  _STEPS_TO_FINISH_SETUP cfg = None
  /\ (exists token,
        _SLACK_RETRO_TOKEN cfg = Some token
        /\ form_lookup form "token" = inr token)
  /\ form_lookup form "user_name" = inr user_name
  /\ form_lookup form "command" = inr slash_command
  /\ form_lookup form "response_url" = inr response_url
  /\ form_lookup form "text" = inr text.

(** The updates of a sweep, applied to a store. *)
Definition review_all {S : Type} {client : Airtable S}
    (items : list item) (reviewed_at : string) (s : S) : S :=
  fold_left
    (fun s it => airtable_update s "Items" (id it) reviewed_at) items s.

(** The answers of the store [s] are well formed: the items of the
    current view have known categories, also after the updates of a sweep
    at the date [reviewed_at]; and a record that is created comes back
    with the category it was given. *)
Definition answers_well_formed {S : Type} {client : Airtable S}
    (reviewed_at : string) (s : S) : Prop :=
  (forall items,
      airtable_get s "Items" "Current View" None = Some items ->
      Forall known_category items
      /\ exists remaining,
           airtable_get (review_all items reviewed_at s)
             "Items" "Current View" None = Some remaining
           /\ Forall known_category remaining)
  /\ (forall data s' record,
        airtable_create s "Items" data = (s', Some record) ->
        category_of record = Category data).

(** What the updates of a sweep make of one record of the reference
    store. *)
Definition review_by (its : list item) (reviewed_at : string) (r : item)
  : item :=
  fold_left (fun r it => RefStore.review (id it) reviewed_at r) its r.

(** ** A store that goes out of service *)

Module OutageStore.

(** A client for the runs in which the service fails: it holds the items
    of the view and answers while it is up; it refuses every creation;
    the first update brings it down, and from then on every answer is an
    error, which has no ['records']. *)
Record t := { up : bool; view : list item }.

Definition get (s : t) (table view_name : string) (formula : option string)
  : option (list item) :=
  if up s then Some (view s) else None.

Definition create (s : t) (table : string) (data : fields) : t * option item :=
  (s, None).

Definition update (s : t) (table record_id reviewed_at : string) : t :=
  {| up := false; view := view s |}.

Definition client : Airtable t := {|
  airtable_get := get;
  airtable_create := create;
  airtable_update := update
|}.

Definition fresh_world (s : t) : @world t :=
  {| store := s; calls := []; posted := []; tasks := [] |}.

End OutageStore.


(** ** A store that does not take the updates *)

Module FrozenStore.

(** A client for the runs in which the updates are lost: it shows the
    same items at every fetch, refuses every creation, and leaves the
    items as they are when they are updated. *)
Record t := { view : list item }.

Definition get (s : t) (table view_name : string) (formula : option string)
  : option (list item) :=
  Some (view s).

Definition create (s : t) (table : string) (data : fields) : t * option item :=
  (s, None).

Definition update (s : t) (table record_id reviewed_at : string) : t := s.

Definition client : Airtable t := {|
  airtable_get := get;
  airtable_create := create;
  airtable_update := update
|}.

Definition fresh_world (items : list item) : @world t :=
  {| store := {| view := items |}; calls := []; posted := []; tasks := [] |}.

End FrozenStore.
(** ** A case mapping for the examples *)

(** The case mapping that knows the letters A to Z and leaves every
    other byte as it is.  It is used to run the program on ASCII texts. *)
Definition ascii_case : CaseMapping.
Proof.
  refine {| str_lower := PyStr.ascii_lower;
            str_capitalize := PyStr.ascii_capitalize |}.
  - reflexivity.
  - reflexivity.
  - intros s. induction s as [|c s IH]; [reflexivity|].
    cbn [PyStr.ascii_lower]. rewrite IH. f_equal.
    destruct c as [[] [] [] [] [] [] [] []]; reflexivity.
Defined.

(** ** Data for the examples *)

Module Examples.

Definition new_item (category object : string) : fields :=
  {| Category := category; Object := object; Creator := "alice";
     Created_At := "2018-03-01T10:00:00.000Z"; Reviewed_At := None |}.

(** The categories [try], [good], [bad], [good]. *)
Definition four_items : list item :=
  [ {| id := "rec0"; item_fields := new_item "try" "Pair more" |};
    {| id := "rec1"; item_fields := new_item "good" "Pairing went well" |};
    {| id := "rec2"; item_fields := new_item "bad" "Late standups" |};
    {| id := "rec3"; item_fields := new_item "good" "London trip" |} ].

(** Their attachments: [Bad], [Good] with its two items in the order
    in which they were given, [Try]. *)
Definition four_attachments : list attachment :=
  [ {| title := "Bad"; text := bullet ++ "Late standups";
       color := "danger" |};
    {| title := "Good";
       text := bullet ++ "Pairing went well" ++ PyStr.newline
               ++ PyStr.newline ++ bullet ++ "London trip";
       color := "good" |};
    {| title := "Try"; text := bullet ++ "Pair more";
       color := "warning" |} ].

Definition one_item_store : RefStore.t :=
  {| RefStore.rows :=
       [ {| id := "rec0"; item_fields := new_item "good" "London trip" |} ];
     RefStore.next_id := 1 |}.

(** Complete settings, on the hosting platform. *)
Definition complete_config : config :=
  {| _SLACK_RETRO_TOKEN := Some "s3cret";
     _AIRTABLE_RETRO_BASE_ID := Some "appBase";
     _AIRTABLE_RETRO_API_KEY := Some "keyApi";
     _AWS_LAMBDA_FUNCTION_NAME := Some "retro-bot" |}.

(** Complete settings, on a local run. *)
Definition local_config : config :=
  {| _SLACK_RETRO_TOKEN := Some "s3cret";
     _AIRTABLE_RETRO_BASE_ID := Some "appBase";
     _AIRTABLE_RETRO_API_KEY := Some "keyApi";
     _AWS_LAMBDA_FUNCTION_NAME := None |}.

Definition incomplete_config : config :=
  {| _SLACK_RETRO_TOKEN := Some "s3cret";
     _AIRTABLE_RETRO_BASE_ID := None;
     _AIRTABLE_RETRO_API_KEY := Some "keyApi";
     _AWS_LAMBDA_FUNCTION_NAME := Some "retro-bot" |}.

Definition slack_form (token command text : string)
  : list (string * string) :=
  [ ("token", token); ("user_name", "alice"); ("command", command);
    ("response_url", "https://hooks.example/cb"); ("text", text) ].

(** The text [say "hi"]. *)
Definition say_hi : string := "say " ++ PyStr.dq ++ "hi" ++ PyStr.dq.

(** A no-break space U+00A0. *)
Definition nbsp : string := String "194"%char (String "160"%char EmptyString).

End Examples.

Module MoreExamples.

Definition four_items_store : RefStore.t :=
  {| RefStore.rows := Examples.four_items; RefStore.next_id := 4 |}.

(** A form without the field [text]. *)
Definition form_without_text : list (string * string) :=
  [ ("token", "s3cret"); ("user_name", "alice"); ("command", "/retro");
    ("response_url", "https://hooks.example/cb") ].

(** The service, up with one item in the view, and down. *)
Definition up_with_one_item : OutageStore.t :=
  {| OutageStore.up := true;
     OutageStore.view :=
       [ {| id := "rec0";
            item_fields := Examples.new_item "good" "London trip" |} ] |}.

Definition down : OutageStore.t :=
  {| OutageStore.up := false; OutageStore.view := [] |}.

End MoreExamples.

(** * Properties *)

(** ** Facts on the string operations *)

Module PyStrFacts.
Import PyStr.

Ltac by_cases_on_char c :=
  destruct c as [[] [] [] [] [] [] [] []]; reflexivity.

Lemma space_is_space c : Ascii.eqb c space = true -> is_space c = true.
Proof. intros H. apply Ascii.eqb_eq in H. now subst c. Qed.

Lemma not_space_neq c : is_space c = false -> Ascii.eqb c space = false.
Proof.
  intros H. destruct (Ascii.eqb c space) eqn:E; [|reflexivity].
  apply space_is_space in E. congruence.
Qed.

(** No byte of a white space character of two or three bytes is a
    space. *)
Lemma space2_second c1 : space2 c1 space = false.
Proof. unfold space2. cbn. now rewrite andb_false_r. Qed.

Lemma space3_second c1 c3 : space3 c1 space c3 = false.
Proof.
  unfold space3. cbn. now rewrite !andb_false_r.
Qed.

Lemma space3_third c1 c2 : space3 c1 c2 space = false.
Proof.
  unfold space3. cbn. now rewrite !andb_false_r.
Qed.

Lemma space2_first c1 c2 : space2 c1 c2 = true -> is_space c1 = false.
Proof.
  unfold space2. intros H. apply andb_true_iff in H as [H _].
  apply Ascii.eqb_eq in H. now subst c1.
Qed.

Lemma space3_first c1 c2 c3 : space3 c1 c2 c3 = true -> is_space c1 = false.
Proof.
  unfold space3. intros H.
  repeat (apply orb_true_iff in H as [H | H]);
    repeat (apply andb_true_iff in H as [H ?]);
    apply Ascii.eqb_eq in H; now subst c1.
Qed.

(** *** Stripping *)

Lemma skip_space_shorter s r :
  skip_space s = Some r -> String.length r < String.length s.
Proof.
  destruct s as [|c1 [|c2 [|c3 s3]]]; cbn [skip_space];
    repeat match goal with
           | |- context [if ?b then _ else _] => destruct b
           end;
    intros H; try discriminate H; injection H as <-; cbn; lia.
Qed.

Lemma lstrip_eq s :
  lstrip s = match skip_space s with
             | Some r => lstrip r
             | None => s
             end.
Proof.
  destruct s as [|c1 s1]; [reflexivity|]. cbn [skip_space lstrip].
  destruct (is_space c1); [reflexivity|].
  destruct s1 as [|c2 s2]; [reflexivity|].
  destruct (space2 c1 c2); [reflexivity|].
  destruct s2 as [|c3 s3]; [reflexivity|].
  destruct (space3 c1 c2 c3); reflexivity.
Qed.

Lemma skip_space_lstrip s : skip_space (lstrip s) = None.
Proof.
  remember (String.length s) as n eqn:Hn.
  revert s Hn. induction n as [n IH] using lt_wf_ind. intros s ->.
  rewrite lstrip_eq. destruct (skip_space s) as [r|] eqn:E; [|exact E].
  apply (IH (String.length r)); [|reflexivity].
  now apply skip_space_shorter.
Qed.

Lemma skip_space_head c s :
  skip_space (String c s) = None -> is_space c = false.
Proof.
  cbn [skip_space]. destruct (is_space c); [discriminate|reflexivity].
Qed.

Lemma skip_space_app p t r :
  skip_space p = Some r -> skip_space (p ++ t) = Some (r ++ t).
Proof.
  destruct p as [|c1 [|c2 [|c3 p3]]]; cbn [skip_space append];
    repeat match goal with
           | |- context [if ?b then _ else _] => destruct b eqn:?
           end;
    intros H; try discriminate H; injection H as <-; try reflexivity.
Qed.

Lemma rstrip_prefix s : exists t, s = (rstrip s ++ t)%string.
Proof.
  induction s as [|c s [t IH]]; [now exists EmptyString|].
  cbn [rstrip]. destruct (is_space_code (String c (rstrip s))).
  - now exists (String c s).
  - exists t. cbn [append]. now rewrite <- IH.
Qed.

Lemma skip_space_rstrip s :
  skip_space s = None -> skip_space (rstrip s) = None.
Proof.
  intros H. destruct (skip_space (rstrip s)) as [r|] eqn:E; [|reflexivity].
  destruct (rstrip_prefix s) as [t Ht].
  apply (skip_space_app _ t) in E. rewrite <- Ht in E. congruence.
Qed.

Lemma skip_space_strip s : skip_space (strip s) = None.
Proof. apply skip_space_rstrip, skip_space_lstrip. Qed.

(** What [strip] leaves starts with a character that is not white space. *)
Lemma strip_head s :
  strip s = EmptyString \/
  exists c r, strip s = String c r /\ is_space c = false.
Proof.
  pose proof (skip_space_strip s) as H.
  destruct (strip s) as [|c r]; [now left|].
  right. exists c, r. split; [reflexivity|]. now apply (skip_space_head c r).
Qed.

Lemma collapse_spaces_head c s :
  is_space c = false ->
  collapse_spaces (String c s) = String c (collapse_spaces s).
Proof. intros H. simpl. now rewrite (not_space_neq c H). Qed.

(** *** Replacing and lengths *)

(** [replace] of a character by itself changes nothing. *)
Lemma replace_same c s : replace c (String c EmptyString) s = s.
Proof.
  induction s as [|d s IH]; simpl; [reflexivity|].
  destruct (Ascii.eqb d c) eqn:E; rewrite IH; [|reflexivity].
  apply Ascii.eqb_eq in E. now subst d.
Qed.

Lemma length_append a b :
  String.length (a ++ b) = String.length a + String.length b.
Proof. induction a as [|c a IH]; simpl; [reflexivity|now rewrite IH]. Qed.

(** Writing a second character in front of each [c] makes a text that
    holds [c] longer. *)
Lemma length_replace_two c e s :
  contains c s = true ->
  String.length s
  < String.length (replace c (String e (String c EmptyString)) s).
Proof.
  induction s as [|d s IH]; simpl; [discriminate|].
  destruct (Ascii.eqb d c) eqn:E; simpl; intros H.
  - destruct (contains c s) eqn:C.
    + specialize (IH eq_refl). lia.
    + clear IH H. apply Nat.lt_succ_r, le_n_S.
      induction s as [|d' s IHs]; simpl; [lia|].
      simpl in C. apply orb_false_iff in C as [C1 C2].
      rewrite C1. simpl. specialize (IHs C2). lia.
  - specialize (IH H). lia.
Qed.

Lemma append_inj_l a b c : (a ++ b)%string = (a ++ c)%string -> b = c.
Proof. induction a as [|x a IH]; simpl; intros H; [exact H|]. injection H. exact IH. Qed.

Lemma mem_app x a b : mem x (a ++ b)%list = mem x a || mem x b.
Proof. unfold mem. apply existsb_app. Qed.

End PyStrFacts.

(** ** White space and the cleaned text *)

Module TextFacts.
Import PyStr.

Local Open Scope string_scope.

Ltac each_char c := destruct c as [[] [] [] [] [] [] [] []].

(** *** White space, by its encodings and by its ranges *)

(** A text is one white space character exactly when it is one of the
    encodings of the list. *)
Lemma is_space_code_listed t :
  existsb (fun code => String.eqb code t) white_space = is_space_code t.
Proof.
  destruct t as [|c1 [|c2 [|c3 [|c4 t]]]].
  - reflexivity.
  - each_char c1; reflexivity.
  - each_char c1; try reflexivity; each_char c2; reflexivity.
  - each_char c1; try reflexivity; each_char c2; try reflexivity;
      each_char c3; reflexivity.
  - cbn [is_space_code].
    destruct (existsb _ white_space) eqn:E; [|reflexivity].
    apply existsb_exists in E as (code & Hin & Heq).
    apply String.eqb_eq in Heq. subst code.
    cbn in Hin.
    repeat (destruct Hin as [Hin | Hin]; [discriminate Hin|]).
    destruct Hin.
Qed.

(** A text starts with one of the encodings exactly when [skip_space]
    finds a white space character at its start. *)
Lemma starts_with_space_skip s :
  starts_with_space s
  = match skip_space s with Some _ => true | None => false end.
Proof.
  destruct s as [|c1 [|c2 [|c3 s3]]].
  - reflexivity.
  - each_char c1; reflexivity.
  - each_char c1; try reflexivity; each_char c2; reflexivity.
  - each_char c1; try reflexivity; each_char c2; try reflexivity;
      each_char c3; reflexivity.
Qed.

Lemma existsb_orb {X : Type} (f g : X -> bool) (l : list X) :
  existsb (fun x => f x || g x) l = existsb f l || existsb g l.
Proof.
  induction l as [|x l IH]; [reflexivity|]. cbn [existsb]. rewrite IH.
  destruct (f x), (g x), (existsb f l), (existsb g l); reflexivity.
Qed.

(** A text ends with one of the encodings exactly when one of its ends
    is a white space character. *)
Lemma ends_with_space_code s : ends_with_space s = ends_with_code s.
Proof.
  induction s as [|c s IH]; [reflexivity|].
  cbn [ends_with_code]. rewrite <- IH, <- is_space_code_listed.
  unfold ends_with_space. rewrite <- existsb_orb. reflexivity.
Qed.

(** *** Collapsing the runs of spaces *)

Lemma collapse_spaces_empty s :
  collapse_spaces s = EmptyString -> s = EmptyString.
Proof.
  induction s as [|c s IH]; [reflexivity|]. cbn [collapse_spaces].
  destruct (Ascii.eqb c space); [|discriminate].
  destruct s as [|d s]; [discriminate|].
  destruct (Ascii.eqb d space); [|discriminate].
  intros H. specialize (IH H). discriminate IH.
Qed.

Lemma collapse_spaces_space r :
  exists x, collapse_spaces (String space r) = String space x.
Proof.
  induction r as [|d r IH]; [now exists EmptyString|].
  change (collapse_spaces (String space (String d r)))
    with (if Ascii.eqb d space then collapse_spaces (String d r)
          else String space (collapse_spaces (String d r))).
  destruct (Ascii.eqb d space) eqn:E.
  - apply Ascii.eqb_eq in E. subst d. exact IH.
  - eauto.
Qed.

Lemma collapse_spaces_cons c r :
  Ascii.eqb c space = false ->
  collapse_spaces (String c r) = String c (collapse_spaces r).
Proof. intros E. cbn [collapse_spaces]. now rewrite E. Qed.

Lemma contains_space_collapse s :
  contains space (collapse_spaces s) = contains space s.
Proof.
  induction s as [|c s IH]; [reflexivity|].
  destruct (Ascii.eqb c space) eqn:E.
  - apply Ascii.eqb_eq in E. subst c.
    destruct (collapse_spaces_space s) as (x & ->). reflexivity.
  - rewrite (collapse_spaces_cons c s E). cbn [contains]. now rewrite IH.
Qed.

Lemma collapse_spaces_no_space s :
  contains space s = false -> collapse_spaces s = s.
Proof.
  induction s as [|c s IH]; [reflexivity|]. cbn [contains]. intros H.
  apply orb_false_iff in H as [H1 H2].
  now rewrite (collapse_spaces_cons c s H1), (IH H2).
Qed.

Lemma has_double_space_cons c d s :
  has_double_space (String c (String d s))
  = (Ascii.eqb c space && Ascii.eqb d space)
    || has_double_space (String d s).
Proof. reflexivity. Qed.

Lemma has_double_space_collapse s :
  has_double_space (collapse_spaces s) = false.
Proof.
  induction s as [|c s IH]; [reflexivity|]. cbn [collapse_spaces].
  destruct (Ascii.eqb c space) eqn:Ec.
  - destruct s as [|d s]; [reflexivity|].
    destruct (Ascii.eqb d space) eqn:Ed; [exact IH|].
    cbn [collapse_spaces] in *. rewrite Ed in *.
    rewrite has_double_space_cons, Ed, andb_false_r. exact IH.
  - destruct (collapse_spaces s) as [|d r]; [reflexivity|].
    rewrite has_double_space_cons, Ec. exact IH.
Qed.

Lemma collapse_spaces_fixed s :
  has_double_space s = false -> collapse_spaces s = s.
Proof.
  induction s as [|c s IH]; [reflexivity|].
  destruct s as [|d s].
  - intros _. cbn. now destruct (Ascii.eqb c space) eqn:E;
      [apply Ascii.eqb_eq in E; subst c|].
  - rewrite has_double_space_cons. intros H.
    apply orb_false_iff in H as [H1 H2].
    change (collapse_spaces (String c (String d s)))
      with (if Ascii.eqb c space
            then if Ascii.eqb d space then collapse_spaces (String d s)
                 else String space (collapse_spaces (String d s))
            else String c (collapse_spaces (String d s))).
    rewrite (IH H2).
    destruct (Ascii.eqb c space) eqn:Ec; [|reflexivity].
    cbn [andb] in H1. rewrite H1.
    apply Ascii.eqb_eq in Ec. now subst c.
Qed.

(** *** White space characters and spaces *)

(** A white space character of several bytes holds no space. *)
Lemma is_space_code_with_space c r :
  contains space r = true -> is_space_code (String c r) = false.
Proof.
  destruct r as [|c2 [|c3 [|c4 r]]]; cbn [contains is_space_code];
    intros H; try discriminate H; try reflexivity.
  - rewrite orb_false_r in H. apply Ascii.eqb_eq in H. subst c2.
    apply PyStrFacts.space2_second.
  - rewrite orb_false_r in H. apply orb_true_iff in H as [H | H];
      apply Ascii.eqb_eq in H; subst.
    + apply PyStrFacts.space3_second.
    + apply PyStrFacts.space3_third.
Qed.

Lemma is_space_code_space r :
  r <> EmptyString -> is_space_code (String space r) = false.
Proof.
  destruct r as [|c2 [|c3 [|c4 r]]]; intros H; try reflexivity.
  contradiction.
Qed.

Lemma is_space_code_collapse c r :
  Ascii.eqb c space = false ->
  is_space_code (String c r) = false ->
  is_space_code (String c (collapse_spaces r)) = false.
Proof.
  intros Ec H. destruct (contains space r) eqn:E.
  - apply is_space_code_with_space. now rewrite contains_space_collapse.
  - now rewrite (collapse_spaces_no_space r E).
Qed.

(** *** Both ends of the cleaned text *)

Lemma ends_with_code_collapse s :
  ends_with_code s = false -> ends_with_code (collapse_spaces s) = false.
Proof.
  induction s as [|c s IH]; [reflexivity|]. cbn [ends_with_code].
  intros H. apply orb_false_iff in H as [Hc Hs]. specialize (IH Hs).
  destruct (Ascii.eqb c space) eqn:Ec.
  - apply Ascii.eqb_eq in Ec. subst c.
    destruct s as [|d s]; [discriminate Hc|].
    change (collapse_spaces (String space (String d s)))
      with (if Ascii.eqb d space then collapse_spaces (String d s)
            else String space (collapse_spaces (String d s))).
    destruct (Ascii.eqb d space); [exact IH|].
    cbn [ends_with_code]. rewrite IH, orb_false_r.
    apply is_space_code_space. intros E.
    apply collapse_spaces_empty in E. discriminate E.
  - rewrite (collapse_spaces_cons c s Ec). cbn [ends_with_code].
    now rewrite IH, (is_space_code_collapse c s Ec Hc).
Qed.

Lemma ends_with_code_rstrip s : ends_with_code (rstrip s) = false.
Proof.
  induction s as [|c s IH]; [reflexivity|]. cbn [rstrip].
  destruct (is_space_code (String c (rstrip s))) eqn:E; [reflexivity|].
  cbn [ends_with_code]. now rewrite E, IH.
Qed.

Lemma skip_space_collapse s :
  skip_space s = None -> skip_space (collapse_spaces s) = None.
Proof.
  destruct s as [|c1 s1]; [reflexivity|]. intros H.
  pose proof (PyStrFacts.skip_space_head c1 s1 H) as Hc.
  rewrite (collapse_spaces_cons c1 s1 (PyStrFacts.not_space_neq c1 Hc)).
  cbn [skip_space] in *. rewrite Hc in *.
  destruct s1 as [|c2 s2]; [reflexivity|].
  destruct (Ascii.eqb c2 space) eqn:E2.
  { apply Ascii.eqb_eq in E2. subst c2.
    destruct (collapse_spaces_space s2) as (x & ->).
    rewrite PyStrFacts.space2_second.
    destruct x as [|c3 x]; [reflexivity|].
    now rewrite PyStrFacts.space3_second. }
  rewrite (collapse_spaces_cons c2 s2 E2).
  destruct (space2 c1 c2); [discriminate H|].
  destruct s2 as [|c3 s3]; [reflexivity|].
  destruct (Ascii.eqb c3 space) eqn:E3.
  { apply Ascii.eqb_eq in E3. subst c3.
    destruct (collapse_spaces_space s3) as (x & ->).
    now rewrite PyStrFacts.space3_third. }
  rewrite (collapse_spaces_cons c3 s3 E3).
  destruct (space3 c1 c2 c3); [discriminate H|reflexivity].
Qed.

Lemma lstrip_fixed s : skip_space s = None -> lstrip s = s.
Proof. intros H. now rewrite PyStrFacts.lstrip_eq, H. Qed.

Lemma rstrip_fixed s : ends_with_code s = false -> rstrip s = s.
Proof.
  induction s as [|c s IH]; [reflexivity|]. cbn [ends_with_code rstrip].
  intros H. apply orb_false_iff in H as [Hc Hs].
  now rewrite (IH Hs), Hc.
Qed.

End TextFacts.

Lemma full_text_shape (text : string) :
  PyStr.skip_space (full_text_of text) = None
  /\ ends_with_code (full_text_of text) = false
  /\ has_double_space (full_text_of text) = false.
Proof.
  unfold full_text_of. repeat split.
  - apply TextFacts.skip_space_collapse, PyStrFacts.skip_space_strip.
  - apply TextFacts.ends_with_code_collapse, TextFacts.ends_with_code_rstrip.
  - apply TextFacts.has_double_space_collapse.
Qed.


(** ** Command parser *)

Lemma blank_full_text_empty text :
  blank (full_text_of text) = true -> full_text_of text = EmptyString.
Proof.
  destruct (full_text_shape text) as (Hs & _ & _).
  pose proof (TextFacts.starts_with_space_skip (full_text_of text)) as Hstart.
  rewrite Hs in Hstart. unfold blank.
  destruct (full_text_of text) as [|c s]; [reflexivity|].
  cbn [String.length blank_within]. intros H.
  apply existsb_exists in H as (code & Hin & H).
  apply andb_true_iff in H as [H _].
  unfold starts_with_space in Hstart.
  assert (existsb (fun code => begins_with code (String c s)) white_space
          = true) as E by (apply existsb_exists; eauto).
  congruence.
Qed.

Section Parser.
Context {cm : CaseMapping}.

(** On the keywords and on the empty text the case mappings are those of
    the ASCII letters. *)
Lemma str_lower_empty : str_lower EmptyString = EmptyString.
Proof. now rewrite str_lower_ascii. Qed.

(** Claim C2, as amended.  When the slash command is not itself one of
    the category keywords, a text that is empty or white space only once
    stripped and collapsed gives the action [help]. *)
Theorem C2_blank_text_gives_help (slash_command text : string) :
  PyStr.mem slash_command _CATEGORY_CMDS = false ->
  blank (full_text_of text) = true ->
  fst (command_action_and_params slash_command (full_text_of text)) = "help".
Proof.
  intros Hslash Hblank.
  rewrite (blank_full_text_empty text Hblank).
  unfold command_action_and_params. rewrite Hslash.
  unfold _get_command_action_and_params. cbn [PyStr.split_space].
  rewrite str_lower_empty. reflexivity.
Qed.

(** For a slash command that is a category keyword the action is that
    keyword, whatever the text holds. *)
Lemma category_alias_is_action (slash_command command_text : string) :
  PyStr.mem slash_command _CATEGORY_CMDS = true ->
  command_action_and_params slash_command command_text
  = (slash_command, command_text).
Proof.
  intros H. unfold command_action_and_params. rewrite H.
  assert (PyStr.mem slash_command _ALL_CMDS = true) as ->; [|reflexivity].
  unfold _ALL_CMDS. rewrite PyStrFacts.mem_app, H. reflexivity.
Qed.

(** The action is always one of the keywords. *)
Lemma command_action_known (slash_command command_text : string) :
  PyStr.mem (fst (command_action_and_params slash_command command_text))
    _ALL_CMDS = true.
Proof.
  unfold command_action_and_params.
  destruct (if PyStr.mem slash_command _CATEGORY_CMDS
            then (slash_command, command_text)
            else _get_command_action_and_params command_text) as [a p].
  destruct (PyStr.mem a _ALL_CMDS) eqn:E; simpl; [exact E|reflexivity].
Qed.

End Parser.

(** Claim C2 as stated fails: under the slash command [good] an empty
    text is parsed to the action [good], not [help], whatever the case
    mappings are. *)
Lemma C2_category_alias_counterexample :
  ~ (forall (cm : CaseMapping) (slash_command text : string),
        blank (full_text_of text) = true ->
        fst (@command_action_and_params cm slash_command (full_text_of text))
        = "help").
Proof.
  intros H. specialize (H ascii_case "good" EmptyString eq_refl).
  discriminate H.
Qed.
(** ** Stable sorting followed by grouping *)

Section SortGroupFacts.
Context {A K : Type}.
Variable ltb : K -> K -> bool.
Variable eqb : K -> K -> bool.
Variable key : A -> K.

Hypothesis eqb_eq : forall a b, eqb a b = true <-> a = b.
Hypothesis ltb_irrefl : forall a, ltb a a = false.
Hypothesis ltb_trans :
  forall a b c, ltb a b = true -> ltb b c = true -> ltb a c = true.
Hypothesis ltb_total :
  forall a b, ltb a b = false -> ltb b a = false -> a = b.

Local Open Scope list_scope.

Local Abbreviation sort := (sorted ltb key).
Local Abbreviation insert := (insert_by ltb key).
Local Abbreviation group := (groupby eqb key).
Local Abbreviation group_from := (groupby_from eqb key).
Local Abbreviation kle := (key_le ltb key).
Local Abbreviation klt := (key_lt ltb).
Local Abbreviation wk := (with_key eqb key).
Local Abbreviation wok := (without_key eqb key).

Lemma eqb_refl k : eqb k k = true.
Proof. now apply eqb_eq. Qed.

Lemma eqb_neq a b : eqb a b = false <-> a <> b.
Proof.
  split.
  - intros E H. apply eqb_eq in H. congruence.
  - intros H. destruct (eqb a b) eqn:E; [|reflexivity].
    apply eqb_eq in E. contradiction.
Qed.

Lemma ltb_asym a b : ltb a b = true -> ltb b a = false.
Proof.
  intros H. destruct (ltb b a) eqn:E; [|reflexivity].
  pose proof (ltb_trans _ _ _ H E) as T. rewrite ltb_irrefl in T. discriminate.
Qed.

Lemma leb_trans a b c :
  ltb b a = false -> ltb c b = false -> ltb c a = false.
Proof.
  intros Hab Hbc. destruct (ltb c a) eqn:E; [|reflexivity].
  destruct (ltb a b) eqn:Eab.
  - rewrite (ltb_trans _ _ _ E Eab) in Hbc. discriminate.
  - pose proof (ltb_total _ _ Eab Hab) as ->. congruence.
Qed.

Lemma filter_none (p : A -> bool) l :
  Forall (fun x => p x = false) l -> filter p l = [].
Proof.
  induction 1 as [|x l Hx _ IH]; simpl; [reflexivity|]. now rewrite Hx.
Qed.

Lemma filter_all (p : A -> bool) l :
  Forall (fun x => p x = true) l -> filter p l = l.
Proof.
  induction 1 as [|x l Hx _ IH]; simpl; [reflexivity|]. now rewrite Hx, IH.
Qed.

Lemma StronglySorted_filter_le (p : A -> bool) l :
  StronglySorted kle l -> StronglySorted kle (filter p l).
Proof.
  induction 1 as [|x l Hl IH Hx]; simpl; [constructor|].
  destruct (p x); [|exact IH].
  constructor; [exact IH|].
  rewrite Forall_forall in *. intros z Hz.
  apply filter_In in Hz as [Hz _]. now apply Hx.
Qed.

(** *** The sort is stable and sorts *)

Lemma filter_insert_by k x l :
  filter (wk k) (insert x l) = filter (wk k) (x :: l).
Proof.
  induction l as [|y l IH]; [reflexivity|].
  cbn [insert_by]. destruct (ltb (key y) (key x)) eqn:E; [|reflexivity].
  cbn [filter] in *. rewrite IH.
  destruct (wk k y) eqn:Ey, (wk k x) eqn:Ex; try reflexivity.
  unfold with_key in Ey, Ex. apply eqb_eq in Ey, Ex.
  rewrite Ey, Ex, ltb_irrefl in E. discriminate.
Qed.

Lemma filter_sorted k l :
  filter (wk k) (sort l) = filter (wk k) l.
Proof.
  induction l as [|x l IH]; [reflexivity|].
  cbn [sorted fold_right]. fold (sort l).
  rewrite filter_insert_by. cbn [filter]. now rewrite IH.
Qed.

Lemma In_insert_by z x l : In z (insert x l) <-> z = x \/ In z l.
Proof.
  induction l as [|y l IH]; cbn [insert_by].
  - simpl. intuition.
  - destruct (ltb (key y) (key x)); simpl in *; intuition.
Qed.

Lemma In_sorted z l : In z (sort l) <-> In z l.
Proof.
  induction l as [|x l IH]; [reflexivity|].
  cbn [sorted fold_right]. fold (sort l).
  rewrite In_insert_by, IH. simpl. intuition.
Qed.

Lemma insert_by_sorted x l :
  StronglySorted kle l -> StronglySorted kle (insert x l).
Proof.
  induction 1 as [|y l Hl IH Hy]; cbn [insert_by].
  - constructor; constructor.
  - destruct (ltb (key y) (key x)) eqn:E.
    + constructor; [exact IH|].
      rewrite Forall_forall in *. intros z Hz.
      apply In_insert_by in Hz as [-> | Hz]; [|now apply Hy].
      unfold key_le. now apply ltb_asym.
    + constructor; [now constructor|].
      constructor; [exact E|].
      rewrite Forall_forall in *. intros z Hz.
      unfold key_le in *. apply (leb_trans _ (key y)); [exact E|now apply Hy].
Qed.

Lemma sorted_is_sorted l : StronglySorted kle (sort l).
Proof.
  induction l as [|x l IH]; [constructor|].
  cbn [sorted fold_right]. now apply insert_by_sorted.
Qed.

(** *** Grouping a sorted list *)

Lemma groupby_from_sorted l : forall k acc,
  StronglySorted kle l ->
  Forall (fun x => ltb (key x) k = false) l ->
  group_from k acc l
  = (k, rev acc ++ filter (wk k) l) :: group (filter (wok k) l).
Proof.
  induction l as [|x l IH]; intros k acc Hs Hk.
  - simpl. now rewrite app_nil_r.
  - inversion Hs as [|? ? Hs' Hx]; subst.
    inversion Hk as [|? ? Hxk Hk']; subst.
    cbn [groupby_from filter]. unfold with_key at 1, without_key at 1.
    destruct (eqb (key x) k) eqn:E; cbn [negb].
    + rewrite (IH k (x :: acc) Hs' Hk'). cbn [rev].
      now rewrite <- app_assoc.
    + assert (Forall (fun z => eqb (key z) k = false) l) as Hne.
      { rewrite Forall_forall in *. intros z Hz.
        apply eqb_neq. intros Hzk.
        specialize (Hx z Hz). unfold key_le in Hx. rewrite Hzk in Hx.
        apply eqb_neq in E. apply E. now apply ltb_total. }
      rewrite (filter_none (wk k) l Hne), app_nil_r.
      rewrite (filter_all (wok k) l).
      * reflexivity.
      * rewrite Forall_forall in *. intros z Hz.
        unfold without_key. now rewrite (Hne z Hz).
Qed.

Lemma filter_with_without k k0 l :
  k <> k0 ->
  filter (wk k) (filter (wok k0) l) = filter (wk k) l.
Proof.
  intros Hk. induction l as [|x l IH]; [reflexivity|].
  cbn [filter]. unfold without_key at 1.
  destruct (eqb (key x) k0) eqn:E0; cbn [negb filter].
  - rewrite IH. unfold with_key at 2.
    apply eqb_eq in E0.
    assert (eqb (key x) k = false) as ->; [|reflexivity].
    apply eqb_neq. congruence.
  - now rewrite IH.
Qed.

(** The groups of a sorted list: one for each key, the keys ascending,
    each group holding the elements of its key in their order. *)
Lemma groupby_sorted_list n : forall l,
  length l <= n ->
  StronglySorted kle l ->
  exists ks,
    StronglySorted klt ks
    /\ (forall k, In k ks <-> In k (map key l))
    /\ group l = map (fun k => (k, filter (wk k) l)) ks.
Proof.
  induction n as [|n IH]; intros l Hn Hs.
  - destruct l; [|simpl in Hn; lia].
    exists []. repeat split; try constructor; simpl; tauto.
  - destruct l as [|x l].
    { exists []. repeat split; try constructor; simpl; tauto. }
    inversion Hs as [|? ? Hs' Hx]; subst.
    set (k0 := key x).
    destruct (IH (filter (wok k0) l)) as (ks & Hks & Hin & Hg).
    { pose proof (filter_length_le (wok k0) l). simpl in Hn. lia. }
    { now apply StronglySorted_filter_le. }
    assert (forall k, In k ks -> k <> k0 /\ In k (map key l) /\ klt k0 k)
      as Hfacts.
    { intros k Hk. apply Hin, in_map_iff in Hk as (z & Hz & Hzin).
      apply filter_In in Hzin as [Hzin Hzk].
      unfold without_key in Hzk. apply negb_true_iff, eqb_neq in Hzk.
      subst k. repeat split.
      - exact Hzk.
      - now apply in_map.
      - rewrite Forall_forall in Hx. specialize (Hx z Hzin).
        unfold key_le in Hx. unfold key_lt.
        destruct (ltb k0 (key z)) eqn:E; [reflexivity|].
        exfalso. apply Hzk. symmetry. now apply ltb_total. }
    exists (k0 :: ks). split; [|split].
    + constructor; [exact Hks|].
      rewrite Forall_forall. intros k Hk. now apply Hfacts.
    + intros k. simpl. split.
      * intros [<- | Hk]; [now left|]. right. now apply Hfacts.
      * intros [Hk | Hk]; [now left|].
        destruct (eqb k k0) eqn:E.
        { apply eqb_eq in E. now left. }
        right. apply Hin. apply in_map_iff in Hk as (z & Hz & Hzin).
        apply in_map_iff. exists z. split; [exact Hz|].
        apply filter_In. split; [exact Hzin|].
        unfold without_key. apply negb_true_iff, eqb_neq.
        apply eqb_neq in E. congruence.
    + cbn [groupby]. fold k0.
      rewrite (groupby_from_sorted l k0 [x] Hs').
      2:{ rewrite Forall_forall in *. intros z Hz. now apply Hx. }
      cbn [map rev app filter]. unfold with_key at 2. fold k0.
      rewrite eqb_refl. f_equal. rewrite Hg.
      apply map_ext_in. intros k Hk.
      destruct (Hfacts k Hk) as (Hne & _ & _).
      rewrite (filter_with_without k k0 l Hne).
      unfold with_key at 2. fold k0.
      assert (eqb k0 k = false) as ->; [|reflexivity].
      apply eqb_neq. congruence.
Qed.

(** Sorting, then grouping. *)
Lemma groupby_sorted l :
  exists ks,
    StronglySorted klt ks
    /\ (forall k, In k ks <-> In k (map key l))
    /\ group (sort l) = map (fun k => (k, filter (wk k) l)) ks.
Proof.
  destruct (groupby_sorted_list (length (sort l)) (sort l) (le_n _)
              (sorted_is_sorted l)) as (ks & Hks & Hin & Hg).
  exists ks. split; [exact Hks|]. split.
  - intros k. rewrite Hin, !in_map_iff.
    split; intros (z & Hz & Hzin); exists z; split; try exact Hz;
      now apply In_sorted.
  - rewrite Hg. apply map_ext. intros k. now rewrite filter_sorted.
Qed.

End SortGroupFacts.

(** ** Item formatter *)

Module StrOrder.

Lemma ltb_lt a b : PyStr.ltb a b = true <-> String_as_OT.lt a b.
Proof.
  unfold PyStr.ltb, String_as_OT.lt.
  destruct (String_as_OT.compare a b); split; congruence.
Qed.

Lemma ltb_irrefl a : PyStr.ltb a a = false.
Proof.
  destruct (PyStr.ltb a a) eqn:E; [|reflexivity].
  apply ltb_lt in E. now apply (StrictOrder_Irreflexive a) in E.
Qed.

Lemma ltb_trans a b c :
  PyStr.ltb a b = true -> PyStr.ltb b c = true -> PyStr.ltb a c = true.
Proof.
  rewrite !ltb_lt. apply (StrictOrder_Transitive a b c).
Qed.

Lemma ltb_total a b :
  PyStr.ltb a b = false -> PyStr.ltb b a = false -> a = b.
Proof.
  intros Hab Hba.
  destruct (String_as_OT.compare_spec a b) as [E | L | L].
  - exact E.
  - apply ltb_lt in L. congruence.
  - apply ltb_lt in L. congruence.
Qed.

End StrOrder.


(** ** The item formatter *)

Lemma comprehension_map {X Y Z : Type} (f : Y -> exn + Z) (g : X -> Y)
    (h : X -> Z) (l : list X) :
  (forall x, In x l -> f (g x) = inr (h x)) ->
  comprehension f (map g l) = inr (map h l).
Proof.
  induction l as [|x l IH]; intros H; simpl; [reflexivity|].
  rewrite (H x (or_introl eq_refl)), IH; [reflexivity|].
  intros y Hy. apply H. now right.
Qed.

(** The groups the formatter works on. *)
Lemma formatter_groups (items : list item) :
  exists categories,
    StronglySorted (fun a b => PyStr.ltb a b = true) categories
    /\ (forall c, In c categories <-> In c (map category_of items))
    /\ groupby String.eqb category_of (sorted PyStr.ltb category_of items)
       = map (fun c =>
                (c, filter (fun it => String.eqb (category_of it) c) items))
           categories.
Proof.
  exact (groupby_sorted PyStr.ltb String.eqb category_of String.eqb_eq
           StrOrder.ltb_irrefl StrOrder.ltb_trans StrOrder.ltb_total items).
Qed.

(** A list in ascending order whose elements are among those of another
    list in ascending order is what is left of the other when the
    elements that are not in the first are struck out. *)
Section SortedSublist.
Context {K : Type}.
Variable lt : K -> K -> Prop.
Variable eqb : K -> K -> bool.
Hypothesis eqb_eq : forall a b, eqb a b = true <-> a = b.
Hypothesis lt_irrefl : forall a, ~ lt a a.
Hypothesis lt_trans : forall a b c, lt a b -> lt b c -> lt a c.

Local Open Scope list_scope.

Lemma filter_nothing (p : K -> bool) (U : list K) :
  (forall u, In u U -> p u = false) -> filter p U = [].
Proof.
  induction U as [|u U IH]; intros H; [reflexivity|].
  cbn [filter]. rewrite (H u (or_introl eq_refl)).
  apply IH. intros v Hv. apply H. now right.
Qed.

Lemma sorted_sublist_filter (L U : list K) :
  StronglySorted lt L -> StronglySorted lt U ->
  (forall x, In x L -> In x U) ->
  L = filter (fun u => existsb (eqb u) L) U.
Proof.
  intros HL HU. revert L HL.
  induction HU as [|u U HU IH Hu]; intros L HL Hin.
  - destruct L as [|x L]; [reflexivity|].
    destruct (Hin x (or_introl eq_refl)).
  - rewrite Forall_forall in Hu.
    destruct L as [|x L'].
    + symmetry. apply filter_nothing. reflexivity.
    + inversion HL as [|? ? HL' Hx]; subst.
      rewrite Forall_forall in Hx.
      destruct (Hin x (or_introl eq_refl)) as [<- | HxU].
      * cbn [filter existsb].
        rewrite (proj2 (eqb_eq u u) eq_refl). cbn [orb]. f_equal.
        transitivity (filter (fun v => existsb (eqb v) L') U).
        -- apply IH; [exact HL'|].
           intros y Hy. destruct (Hin y (or_intror Hy)) as [<- | H];
             [|exact H].
           exfalso. apply (lt_irrefl u), Hx, Hy.
        -- apply filter_ext_in. intros v Hv.
           destruct (eqb v u) eqn:E; [|reflexivity].
           apply eqb_eq in E. subst v.
           exfalso. apply (lt_irrefl u), Hu, Hv.
      * assert (~ In u (x :: L')) as Hnot.
        { intros [-> | Hu'].
          - apply (lt_irrefl u), Hu, HxU.
          - apply (lt_irrefl u), (lt_trans u x u); [apply Hu, HxU|].
            apply Hx, Hu'. }
        cbn [filter].
        destruct (existsb (eqb u) (x :: L')) eqn:E.
        { apply existsb_exists in E as (y & Hy & Ey).
          apply eqb_eq in Ey. subst y. contradiction. }
        apply IH; [exact HL|].
        intros y Hy. destruct (Hin y Hy) as [<- | H]; [contradiction|exact H].
Qed.

End SortedSublist.

Lemma bool_eq_iff (a b : bool) : (a = true <-> b = true) -> a = b.
Proof. destruct a, b; intros [H1 H2]; auto; symmetry; auto. Qed.

(** The text of an attachment, as the program joins it and as the
    specification words it. *)
Lemma bulleted_join (l : list item) :
  PyStr.join (PyStr.newline ++ PyStr.newline)%string
    (map (fun it => (bullet ++ object_of it)%string) l)
  = bulleted (map (fun it => Object (item_fields it)) l).
Proof.
  unfold PyStr.join.
  induction l as [|a l IH]; [reflexivity|].
  destruct l as [|b l]; [reflexivity|].
  change (String.concat (PyStr.newline ++ PyStr.newline)
            (map (fun it => (bullet ++ object_of it)%string) (a :: b :: l)))
    with ((bullet ++ object_of a)
          ++ (PyStr.newline ++ PyStr.newline)
          ++ String.concat (PyStr.newline ++ PyStr.newline)
               (map (fun it => (bullet ++ object_of it)%string) (b :: l)))%string.
  rewrite IH. reflexivity.
Qed.

Lemma occurring_are_known (items : list item) c :
  In c (occurring_categories items) -> In c ["good"; "bad"; "try"].
Proof.
  unfold occurring_categories. intros H. apply filter_In in H as [H _].
  cbn [In] in *. tauto.
Qed.

Section FormatterFacts.
Context {cm : CaseMapping}.

Lemma title_of_known category :
  In category ["good"; "bad"; "try"] ->
  str_capitalize category = specified_title category.
Proof.
  intros [<- | [<- | [<- | []]]]; now rewrite str_capitalize_ascii.
Qed.

Lemma color_of_known category :
  In category ["good"; "bad"; "try"] ->
  dict_get colors_by_category category = Some (expected_color category).
Proof. intros [<- | [<- | [<- | []]]]; reflexivity. Qed.

Lemma attachment_of_known_group (items : list item) category :
  In category ["good"; "bad"; "try"] ->
  attachment_of_group
    (category, filter (fun it => String.eqb (category_of it) category) items)
  = inr (specified_attachment items category).
Proof.
  intros H. unfold attachment_of_group, specified_attachment.
  rewrite (color_of_known category H), (title_of_known category H).
  rewrite bulleted_join. reflexivity.
Qed.

(** The categories of the groups are the categories that occur. *)
Lemma groups_are_occurring (items : list item) categories :
  Forall known_category items ->
  StronglySorted (fun a b => PyStr.ltb a b = true) categories ->
  (forall c, In c categories <-> In c (map category_of items)) ->
  categories = occurring_categories items.
Proof.
  intros Hknown Hs Hin.
  rewrite (sorted_sublist_filter (fun a b => PyStr.ltb a b = true) String.eqb
             String.eqb_eq
             (fun a H => eq_true_false_abs _ H (StrOrder.ltb_irrefl a))
             StrOrder.ltb_trans categories ["bad"; "good"; "try"] Hs).
  - unfold occurring_categories. apply filter_ext. intros c.
    apply bool_eq_iff. rewrite !existsb_exists. split.
    + intros (k & Hk & E). apply String.eqb_eq in E. subst k.
      apply Hin, in_map_iff in Hk as (it & E & Hit).
      exists it. split; [exact Hit|]. apply String.eqb_eq. exact E.
    + intros (it & Hit & E). apply String.eqb_eq in E.
      exists c. split; [|apply String.eqb_refl].
      apply Hin, in_map_iff. exists it. split; [exact E|exact Hit].
  - repeat constructor.
  - intros c Hc. apply Hin, in_map_iff in Hc as (it & <- & Hit).
    rewrite Forall_forall in Hknown. specialize (Hknown it Hit).
    unfold known_category in Hknown. cbn [In] in *. tauto.
Qed.

(** Claim C3.  When every category is [good], [bad] or [try], the formatter
    gives one attachment for each of the three categories that occurs
    among the items, [bad] before [good] before [try]; the title is
    [Bad], [Good] or [Try], the colour [danger], [good] or [warning], and
    the text holds the objects of the items of the category, in the order
    in which the items were given, each after a bullet and a space, with
    a blank line between two. *)
Theorem C3_attachments_grouped_sorted_stable (items : list item) :
  Forall known_category items ->
  _get_retrospective_items_attachments items
  = inr (map (specified_attachment items) (occurring_categories items)).
Proof.
  intros Hknown.
  destruct (formatter_groups items) as (categories & Hs & Hin & Hg).
  unfold _get_retrospective_items_attachments. cbv zeta. rewrite Hg.
  rewrite (groups_are_occurring items categories Hknown Hs Hin).
  apply comprehension_map. intros c Hc.
  apply attachment_of_known_group. exact (occurring_are_known items c Hc).
Qed.

(** The attachments for items of known categories, through the groups. *)
Lemma formatter_of_known_categories (items : list item) :
  Forall (fun it => In (category_of it) ["good"; "bad"; "try"]%string) items ->
  exists categories,
    StronglySorted (fun a b => PyStr.ltb a b = true) categories
    /\ (forall c, In c categories <-> In c (map category_of items))
    /\ _get_retrospective_items_attachments items
       = inr (map (expected_attachment items) categories).
Proof.
  intros Hcat.
  destruct (formatter_groups items) as (categories & Hs & Hin & Hg).
  exists categories. split; [exact Hs|]. split; [exact Hin|].
  unfold _get_retrospective_items_attachments. rewrite Hg.
  apply comprehension_map. intros c Hc.
  apply Hin, in_map_iff in Hc as (it & <- & Hit).
  rewrite Forall_forall in Hcat. specialize (Hcat it Hit).
  unfold attachment_of_group, expected_attachment.
  destruct Hcat as [E | [E | [E | []]]]; rewrite <- E; reflexivity.
Qed.

End FormatterFacts.

(** ** The formula of the duplicate check *)

Lemma escape_quotes_id s : escape_quotes s = s.
Proof. apply PyStrFacts.replace_same. Qed.

(** Claim C10.  The replacement applied to the object before it is put in
    the formula changes no string; so for an object that holds a double
    quote the formula holds the object as it is, and differs from the
    formula in which the quotes of the object are escaped. *)
Theorem C10_quotes_left_unescaped (category item_object : string) :
  PyStr.contains PyStr.dquote item_object = true ->
  (forall s, escape_quotes s = s)
  /\ duplicate_check_formula category item_object
     = "AND(Category = " ++ PyStr.dq ++ category ++ PyStr.dq
       ++ ", Object = " ++ PyStr.dq ++ item_object ++ PyStr.dq ++ ")"
  /\ duplicate_check_formula category item_object
     <> quoted_exact_match_formula category item_object.
Proof.
  intros Hq. split; [exact escape_quotes_id|]. split.
  - unfold duplicate_check_formula. now rewrite escape_quotes_id.
  - unfold duplicate_check_formula, quoted_exact_match_formula.
    rewrite escape_quotes_id. intros H.
    do 6 apply PyStrFacts.append_inj_l in H.
    apply (f_equal String.length) in H.
    rewrite !PyStrFacts.length_append in H.
    pose proof (PyStrFacts.length_replace_two PyStr.dquote PyStr.backslash
                  item_object Hq).
    lia.
Qed.

(** ** The program over any client *)

Lemma mem_In x l : PyStr.mem x l = true <-> In x l.
Proof.
  unfold PyStr.mem. rewrite existsb_exists. split.
  - intros (y & Hy & E). apply String.eqb_eq in E. now subst.
  - intros H. exists x. split; [exact H|apply String.eqb_refl].
Qed.

Lemma mem_not_In x l : PyStr.mem x l = false <-> ~ In x l.
Proof.
  rewrite <- mem_In. destruct (PyStr.mem x l); split; congruence.
Qed.

Lemma comprehension_raises {X Y : Type} (f : X -> exn + Y) l e :
  comprehension f l = inl e -> exists x, In x l /\ f x = inl e.
Proof.
  induction l as [|x l IH]; cbn [comprehension]; intros H; [discriminate H|].
  destruct (f x) as [e'|y] eqn:E.
  - injection H as <-. exists x. split; [now left|exact E].
  - destruct (comprehension f l) as [e'|ys]; [|discriminate H].
    injection H as <-. destruct (IH eq_refl) as (z & Hz & Ez).
    exists z. split; [now right|exact Ez].
Qed.

Section BotFacts.
Context {S : Type} {client : Airtable S} {cm : CaseMapping}.
Implicit Types (w : world S).

Local Open Scope list_scope.

Lemma formatter_raises_key_error items e :
  _get_retrospective_items_attachments items = inl e ->
  exists k, e = KeyError k.
Proof.
  unfold _get_retrospective_items_attachments. cbv zeta. intros H.
  apply comprehension_raises in H as ([c its] & _ & H).
  unfold attachment_of_group in H.
  destruct (dict_get colors_by_category c); [discriminate H|].
  injection H as <-. now exists c.
Qed.

(** Claim C4.  An object whose lower-case form is one of the keywords is
    rejected with a message that names the bot and the object; the world
    is left as it was: no call is made on the client. *)
Theorem C4_reserved_term_rejected (now category item_object user_name : string) w :
  In (str_lower item_object)
    ["good"; "bad"; "try"; "new"; "list"; "help"; "?"] ->
  _add_retrospective_item_and_get_response
    now category item_object user_name w
  = (w, inr (Text ("Sorry, but *Retrospective Bot* can't save *"
                   ++ item_object ++ "* because it's a reserved term.")%string)).
Proof.
  intros H. apply (mem_In _ _ALL_CMDS) in H.
  unfold _add_retrospective_item_and_get_response. rewrite H. reflexivity.
Qed.

(** What the duplicate check and the creation leave in the list of calls. *)
Lemma add_calls (now category item_object user_name : string) w :
  PyStr.mem (str_lower item_object) _ALL_CMDS = false ->
  let formula :=
    duplicate_check_formula (str_lower category)
      (str_capitalize item_object) in
  let data :=
    {| Category := str_lower category;
       Object := str_capitalize item_object;
       Creator := user_name;
       Created_At := (now ++ "Z")%string;
       Reviewed_At := None |} in
  calls (fst (_add_retrospective_item_and_get_response
                now category item_object user_name w))
  = calls w
    ++ Get "Items" "Current View" (Some formula)
       :: (if records_truthy
                (airtable_get (store w) "Items" "Current View" (Some formula))
           then [] else [Create "Items" data]).
Proof.
  intros H. cbv zeta.
  unfold _add_retrospective_item_and_get_response. rewrite H.
  unfold bind, client_get, client_create, ret, lift, log.
  cbn [store calls posted tasks].
  change _AIRTABLE_RETRO_ITEMS_TABLE_ID with "Items"%string.
  change _AIRTABLE_RETRO_ITEMS_CURRENT_VIEW with "Current View"%string.
  destruct (records_truthy _); cbn [fst calls]; [reflexivity|].
  rewrite str_lower_idem.
  destruct (airtable_create _ _ _) as [s' [record|]]; cbn [fst calls].
  - destruct (_get_retrospective_items_attachments [record]);
      cbn [fst calls]; now rewrite <- app_assoc.
  - now rewrite <- app_assoc.
Qed.

(** Claim C6.  For an object that is not a reserved term, the calls made
    are the duplicate check and, when it finds nothing, one creation; the
    creation receives the capitalized object and the category in lower
    case.  On ASCII text the capitalized object is the text with its
    first character in upper case and the others in lower case, and the
    lower-case category the text with every letter in lower case. *)
Theorem C6_create_receives_normalized_fields
    (now category item_object user_name : string) w :
  ~ In (str_lower item_object)
      ["good"; "bad"; "try"; "new"; "list"; "help"; "?"] ->
  let formula :=
    duplicate_check_formula (str_lower category)
      (str_capitalize item_object) in
  let data :=
    {| Category := str_lower category;
       Object := str_capitalize item_object;
       Creator := user_name;
       Created_At := (now ++ "Z")%string;
       Reviewed_At := None |} in
  calls (fst (_add_retrospective_item_and_get_response
                now category item_object user_name w))
  = calls w
    ++ Get "Items" "Current View" (Some formula)
       :: (if records_truthy
                (airtable_get (store w) "Items" "Current View" (Some formula))
           then [] else [Create "Items" data])
  /\ (forall c s,
        item_object = String c s ->
        PyStr.is_ascii item_object = true ->
        Object data = String (PyStr.upper_char c) (PyStr.ascii_lower s))
  /\ (PyStr.is_ascii category = true ->
      Category data = PyStr.ascii_lower category)
  /\ str_capitalize "london trip" = "London trip"%string
  /\ str_capitalize "ALREADY CAPS" = "Already caps"%string.
Proof.
  intros H. apply (mem_not_In _ _ALL_CMDS) in H.
  split; [now apply add_calls|]. cbn [Object Category]. repeat split.
  - intros c s -> Hascii. now rewrite str_capitalize_ascii.
  - intros Hascii. now rewrite str_lower_ascii.
  - now rewrite str_capitalize_ascii.
  - now rewrite str_capitalize_ascii.
Qed.

(** Claim C9.  When the first fetch of the sweep gives no item, the
    sweep posts to the response URL that everything was already
    reviewed, without attachments; the only call on the client is that
    fetch, and the store is unchanged. *)
Theorem C9_sweep_of_empty_view (now response_url : string) w :
  records_truthy (airtable_get (store w) "Items" "Current View" None) = false ->
  _async_mark_retrospective_items_as_reviewed now response_url w
  = ({| store := store w;
        calls := calls w ++ [Get "Items" "Current View" None];
        posted :=
          posted w
          ++ [(response_url,
               {| fu_response_type := "in_channel";
                  fu_text :=
                    "All retrospective were already marked as reviewed!";
                  fu_attachments := None |})];
        tasks := tasks w |}, inr tt).
Proof.
  intros H.
  unfold _async_mark_retrospective_items_as_reviewed, bind, client_get, log.
  change _AIRTABLE_RETRO_ITEMS_TABLE_ID with "Items"%string.
  change _AIRTABLE_RETRO_ITEMS_CURRENT_VIEW with "Current View"%string.
  cbn [store calls posted tasks].
  destruct (airtable_get (store w) "Items" "Current View" None)
    as [[|i items]|]; try discriminate H; reflexivity.
Qed.

(** Claim C8.  When one of the three settings is unset or empty, every
    request is answered with status 200 and the setup message, and the
    world is left as it was.  When the three are set, a request whose
    token is not the configured one is aborted with status 401, and the
    world is left as it was. *)
Theorem C8_setup_message_then_token_check
    (cfg : config) (now : string) (form : list (string * string)) w :
  (env_not (_SLACK_RETRO_TOKEN cfg) = true
   \/ env_not (_AIRTABLE_RETRO_BASE_ID cfg) = true
   \/ env_not (_AIRTABLE_RETRO_API_KEY cfg) = true ->
   handle_slack_notification cfg now form w
   = (w, inr (TextResponse
                ("Need to setup the following AWS Lambda function env variables:"
                 ++ PyStr.newline
                 ++ repr_names (_MISSING_ENV_VARIABLES cfg))%string 200)))
  /\ (env_not (_SLACK_RETRO_TOKEN cfg) = false ->
      env_not (_AIRTABLE_RETRO_BASE_ID cfg) = false ->
      env_not (_AIRTABLE_RETRO_API_KEY cfg) = false ->
      forall token,
        form_lookup form "token" = inr token ->
        _SLACK_RETRO_TOKEN cfg <> Some token ->
        handle_slack_notification cfg now form w = (w, inl (Abort 401))).
Proof.
  split.
  - intros H. unfold handle_slack_notification, _STEPS_TO_FINISH_SETUP.
    destruct (_MISSING_ENV_VARIABLES cfg) as [|m ms] eqn:E; [|reflexivity].
    exfalso. unfold _MISSING_ENV_VARIABLES in E.
    destruct H as [H | [H | H]]; rewrite H in E;
      repeat match type of E with
             | context [if ?b then _ else _] => destruct b
             end; discriminate E.
  - intros H1 H2 H3 token Htok Hne.
    unfold handle_slack_notification, _STEPS_TO_FINISH_SETUP,
      _MISSING_ENV_VARIABLES.
    rewrite H1, H2, H3. cbn [app].
    unfold bind, lift. rewrite Htok.
    destruct (_SLACK_RETRO_TOKEN cfg) as [secret|]; [|reflexivity].
    destruct (String.eqb token secret) eqn:E; [|reflexivity].
    apply String.eqb_eq in E. subst. contradiction.
Qed.

End BotFacts.

(** ** The dispatcher and the response builder *)

Lemma category_not_help a :
  PyStr.mem a _CATEGORY_CMDS = true -> PyStr.mem a _HELP_CMDS = false.
Proof.
  intros H. apply mem_In in H. simpl in H.
  destruct H as [<- | [<- | [<- | []]]]; reflexivity.
Qed.

Lemma list_not_help a :
  PyStr.mem a _LIST_CMDS = true -> PyStr.mem a _HELP_CMDS = false.
Proof.
  intros H. apply mem_In in H. simpl in H.
  destruct H as [<- | []]; reflexivity.
Qed.

Lemma new_not_help a :
  PyStr.mem a _NEW_CMDS = true -> PyStr.mem a _HELP_CMDS = false.
Proof.
  intros H. apply mem_In in H. simpl in H.
  destruct H as [<- | []]; reflexivity.
Qed.

Lemma format_json_response_type r in_channel :
  exists text attachments,
    _format_json_response r in_channel
    = JsonResponse
        {| response_type := if in_channel then "in_channel" else "ephemeral";
           msg_text := text;
           msg_attachments := attachments |} 200.
Proof.
  destruct r as [s | s [|a atts]]; cbn; eauto.
Qed.

Section HandlerFacts.
Context {S : Type} {client : Airtable S} {cm : CaseMapping}.
Implicit Types (w : world S).

Local Open Scope list_scope.

Lemma bind_lift_inr {X Y} (x : X) (k : X -> M S Y) w :
  bind (lift (inr x)) k w = k x w.
Proof. reflexivity. Qed.

(** The dispatcher, once the request is accepted. *)
Lemma handler_accepted (cfg : config) (now : string)
    (form : list (string * string)) w
    (user_name slash_command response_url text : string) :
  accepted cfg form user_name slash_command response_url text ->
  handle_slack_notification cfg now form w
  = (let (command_action, command_params) :=
       command_action_and_params slash_command (full_text_of text) in
     if PyStr.mem command_action _CATEGORY_CMDS then
       bind (_add_retrospective_item_and_get_response
               now command_action command_params user_name)
         (fun response => ret (_format_json_response response true)) w
     else if PyStr.mem command_action _LIST_CMDS then
       bind _get_retrospective_items_response
         (fun response => ret (_format_json_response response true)) w
     else if PyStr.mem command_action _NEW_CMDS then
       bind (if PyStr.truthy command_params
             then ret (Text (did_you_mean_message command_params))
             else _mark_retrospective_items_as_reviewed cfg now response_url)
         (fun response => ret (_format_json_response response true)) w
     else if PyStr.mem command_action _HELP_CMDS
             || String.eqb (full_text_of text) EmptyString
             || String.eqb (full_text_of text) " " then
       ret (_format_json_response (Text (help_message slash_command)) false) w
     else raise NoReturnValue w).
Proof.
  intros (Hsteps & (token & Hsecret & Htoken) & Huser & Hcommand & Hurl & Htext).
  unfold handle_slack_notification.
  rewrite Hsteps, Htoken, bind_lift_inr, Hsecret, String.eqb_refl.
  cbn [negb].
  rewrite Huser, bind_lift_inr, Hcommand, bind_lift_inr, Hurl, bind_lift_inr,
    Htext, bind_lift_inr.
  cbv zeta.
  destruct (command_action_and_params slash_command (full_text_of text))
    as [a p].
  repeat match goal with
         | |- context [if ?b then _ else _] => destruct b
         end; reflexivity.
Qed.

(** *** The sweep *)

Lemma for_each_update_full (items : list item) (reviewed_at : string) w :
  for_each items (fun item => client_update "Items" (id item) reviewed_at) w
  = ({| store := review_all items reviewed_at (store w);
        calls :=
          calls w ++ map (fun it => Update "Items" (id it) reviewed_at) items;
        posted := posted w; tasks := tasks w |}, inr tt).
Proof.
  revert w. induction items as [|i items IH]; intros w; cbn [for_each].
  - destruct w. unfold ret. cbn. now rewrite app_nil_r.
  - unfold bind at 1, client_update at 1. rewrite IH.
    cbn [store calls posted tasks map review_all fold_left].
    now rewrite <- app_assoc.
Qed.

Lemma sweep_nothing_found (now response_url : string) w :
  records_truthy (airtable_get (store w) "Items" "Current View" None) = false ->
  store (fst (_async_mark_retrospective_items_as_reviewed now response_url w))
  = store w.
Proof.
  intros H.
  unfold _async_mark_retrospective_items_as_reviewed, bind, client_get.
  change _AIRTABLE_RETRO_ITEMS_TABLE_ID with "Items"%string.
  change _AIRTABLE_RETRO_ITEMS_CURRENT_VIEW with "Current View"%string.
  destruct (airtable_get (store w) "Items" "Current View" None)
    as [[|i items]|]; try discriminate H; reflexivity.
Qed.

(** The sweep, once the first fetch has given items. *)
Lemma sweep_found (now response_url : string) w (i : item) (items : list item) :
  airtable_get (store w) "Items" "Current View" None = Some (i :: items) ->
  let s1 := review_all (i :: items) (now ++ "Z")%string (store w) in
  let w1 :=
    {| store := s1;
       calls :=
         calls w
         ++ Get "Items" "Current View" None
            :: map (fun it => Update "Items" (id it) (now ++ "Z")%string)
                 (i :: items)
         ++ [Get "Items" "Current View" None];
       posted := posted w; tasks := tasks w |} in
  _async_mark_retrospective_items_as_reviewed now response_url w
  = match airtable_get s1 "Items" "Current View" None with
    | Some l =>
        match _get_retrospective_items_attachments l with
        | inl e => (w1, inl e)
        | inr attachments =>
            requests_post response_url
              {| fu_response_type := "in_channel";
                 fu_text :=
                   match attachments with
                   | _ :: _ =>
                       ("All retrospective items marked as reviewed!"
                        ++ (PyStr.newline
                            ++ "Here are the remaining 'try' items to complete:"))%string
                   | [] => EmptyString
                   end;
                 fu_attachments := Some attachments |} w1
        end
    | None => (w1, inl TypeError)
    end.
Proof.
  intros Hget s1 w1.
  unfold _async_mark_retrospective_items_as_reviewed.
  unfold bind at 1, client_get at 1.
  change _AIRTABLE_RETRO_ITEMS_TABLE_ID with "Items"%string.
  change _AIRTABLE_RETRO_ITEMS_CURRENT_VIEW with "Current View"%string.
  rewrite Hget. unfold bind at 1. rewrite for_each_update_full.
  unfold bind at 1, client_get at 1. unfold bind at 1.
  cbn [store calls posted tasks log]. fold s1.
  destruct (airtable_get s1 "Items" "Current View" None) as [l|];
    [unfold lift; destruct (_get_retrospective_items_attachments l)|];
    unfold requests_post, raise, log, w1; cbn [store calls posted tasks];
    rewrite <- ?app_assoc; reflexivity.
Qed.

(** *** When the handlers return *)

Lemma formatter_returns (items : list item) :
  Forall known_category items ->
  exists attachments,
    _get_retrospective_items_attachments items = inr attachments.
Proof.
  intros H.
  destruct (formatter_of_known_categories items H) as (cs & _ & _ & E).
  eauto.
Qed.

Lemma lower_of_category a :
  PyStr.mem a _CATEGORY_CMDS = true -> str_lower a = a.
Proof.
  intros H. apply mem_In in H. simpl in H.
  destruct H as [<- | [<- | [<- | []]]]; now rewrite str_lower_ascii.
Qed.

Lemma add_returns (now category item_object user_name : string) w :
  (forall data s' record,
      airtable_create (store w) "Items" data = (s', Some record) ->
      category_of record = Category data) ->
  PyStr.mem category _CATEGORY_CMDS = true ->
  exists w' response,
    _add_retrospective_item_and_get_response
      now category item_object user_name w = (w', inr response).
Proof.
  intros Hcreate Hcat.
  unfold _add_retrospective_item_and_get_response.
  destruct (PyStr.mem (str_lower item_object) _ALL_CMDS);
    [unfold ret; eauto|].
  unfold bind, client_get, client_create, ret, lift, log.
  cbn [store calls posted tasks].
  change _AIRTABLE_RETRO_ITEMS_TABLE_ID with "Items"%string.
  destruct (records_truthy _); [eauto|].
  cbn [store calls posted tasks].
  destruct (airtable_create (store w) "Items" _) as [s' [record|]] eqn:E;
    [|eauto].
  apply Hcreate in E. cbn [Category] in E.
  rewrite !(lower_of_category category Hcat) in E.
  destruct (formatter_returns [record]) as (attachments & ->); [|eauto].
  constructor; [|constructor].
  unfold known_category. unfold category_of in E. rewrite E.
  apply mem_In in Hcat. simpl in Hcat. simpl. tauto.
Qed.

Lemma list_returns w :
  (forall items,
      airtable_get (store w) "Items" "Current View" None = Some items ->
      Forall known_category items) ->
  exists w' response,
    _get_retrospective_items_response w = (w', inr response).
Proof.
  intros Hknown.
  unfold _get_retrospective_items_response, bind, client_get, ret, lift.
  change _AIRTABLE_RETRO_ITEMS_TABLE_ID with "Items"%string.
  change _AIRTABLE_RETRO_ITEMS_CURRENT_VIEW with "Current View"%string.
  destruct (airtable_get (store w) "Items" "Current View" None)
    as [[|i items]|] eqn:E; [eauto| |eauto].
  destruct (formatter_returns (i :: items)) as (attachments & ->); [|eauto].
  now apply Hknown.
Qed.

Lemma sweep_returns (now response_url : string) w :
  answers_well_formed (now ++ "Z")%string (store w) ->
  exists w',
    _async_mark_retrospective_items_as_reviewed now response_url w
    = (w', inr tt).
Proof.
  intros [Hview _].
  destruct (airtable_get (store w) "Items" "Current View" None)
    as [[|i items]|] eqn:E.
  - unfold _async_mark_retrospective_items_as_reviewed, bind, client_get.
    change _AIRTABLE_RETRO_ITEMS_TABLE_ID with "Items"%string.
    change _AIRTABLE_RETRO_ITEMS_CURRENT_VIEW with "Current View"%string.
    rewrite E. unfold requests_post. eauto.
  - rewrite (sweep_found now response_url w i items E). cbv zeta.
    destruct (Hview _ eq_refl) as (_ & remaining & -> & Hknown).
    destruct (formatter_returns remaining Hknown) as (attachments & ->).
    unfold requests_post. eauto.
  - unfold _async_mark_retrospective_items_as_reviewed, bind, client_get.
    change _AIRTABLE_RETRO_ITEMS_TABLE_ID with "Items"%string.
    change _AIRTABLE_RETRO_ITEMS_CURRENT_VIEW with "Current View"%string.
    rewrite E. unfold requests_post. eauto.
Qed.

Lemma mark_returns (cfg : config) (now response_url : string) w :
  answers_well_formed (now ++ "Z")%string (store w) ->
  exists w' response,
    _mark_retrospective_items_as_reviewed cfg now response_url w
    = (w', inr response).
Proof.
  intros H. unfold _mark_retrospective_items_as_reviewed, call_task, bind.
  destruct (env_not (_AWS_LAMBDA_FUNCTION_NAME cfg)).
  - destruct (sweep_returns now response_url w H) as (w' & ->).
    unfold ret. eauto.
  - unfold run_as_task, ret. eauto.
Qed.

(** Claim C7.  For a request that is processed (the settings are
    complete, the token is the configured one, the fields are there):
    when the action is a help action, the reply is the usage message in a
    JSON body with status 200 marked [ephemeral], and the world is left
    as it was; for every other action (a category, [list], [new] with or
    without text) every reply is a JSON body with status 200 marked
    [in_channel], and there is such a reply whenever the answers of the
    store are well formed. *)
Theorem C7_help_is_ephemeral_others_in_channel
    (cfg : config) (now : string) (form : list (string * string)) w
    (user_name slash_command response_url text : string) :
  accepted cfg form user_name slash_command response_url text ->
  let action :=
    fst (command_action_and_params slash_command (full_text_of text)) in
  (PyStr.mem action _HELP_CMDS = true ->
   handle_slack_notification cfg now form w
   = (w, inr (JsonResponse
                {| response_type := "ephemeral";
                   msg_text := help_message slash_command;
                   msg_attachments := [] |} 200)))
  /\ (PyStr.mem action _HELP_CMDS = false ->
      (forall w' reply,
          handle_slack_notification cfg now form w = (w', inr reply) ->
          exists reply_text attachments,
            reply = JsonResponse
                      {| response_type := "in_channel";
                         msg_text := reply_text;
                         msg_attachments := attachments |} 200)
      /\ (answers_well_formed (now ++ "Z")%string (store w) ->
          exists w' reply_text attachments,
            handle_slack_notification cfg now form w
            = (w', inr (JsonResponse
                          {| response_type := "in_channel";
                             msg_text := reply_text;
                             msg_attachments := attachments |} 200)))).
Proof.
  intros Haccepted action.
  rewrite (handler_accepted cfg now form w user_name slash_command
             response_url text Haccepted).
  pose proof (command_action_known slash_command (full_text_of text)) as Hall.
  fold action in Hall. subst action.
  destruct (command_action_and_params slash_command (full_text_of text))
    as [a p].
  cbn [fst] in *. split.
  - intros Hhelp. apply mem_In in Hhelp. simpl in Hhelp.
    destruct Hhelp as [<- | [<- | []]]; reflexivity.
  - intros Hhelp.
    destruct (PyStr.mem a _CATEGORY_CMDS) eqn:Ecat.
    { unfold bind, ret. split.
      - intros w' reply.
        destruct (_add_retrospective_item_and_get_response now a p user_name w)
          as [w1 [e|r]]; intros H; [discriminate H|].
        injection H as _ <-. exact (format_json_response_type r true).
      - intros [_ Hcreate].
        destruct (add_returns now a p user_name w Hcreate Ecat)
          as (w' & r & ->).
        destruct (format_json_response_type r true) as (t & atts & ->).
        eauto. }
    destruct (PyStr.mem a _LIST_CMDS) eqn:Elist.
    { unfold bind, ret. split.
      - intros w' reply.
        destruct (_get_retrospective_items_response w) as [w1 [e|r]];
          intros H; [discriminate H|].
        injection H as _ <-. exact (format_json_response_type r true).
      - intros [Hview _].
        destruct (list_returns w) as (w' & r & ->).
        { intros items E. now apply Hview. }
        destruct (format_json_response_type r true) as (t & atts & ->).
        eauto. }
    destruct (PyStr.mem a _NEW_CMDS) eqn:Enew.
    { unfold bind. split.
      - intros w' reply.
        destruct ((if PyStr.truthy p
                   then ret (Text (did_you_mean_message p))
                   else _mark_retrospective_items_as_reviewed
                          cfg now response_url) w) as [w1 [e|r]];
          intros H; [discriminate H|].
        unfold ret in H. injection H as _ <-.
        exact (format_json_response_type r true).
      - intros Hwell. destruct (PyStr.truthy p).
        + unfold ret. cbn. eauto.
        + destruct (mark_returns cfg now response_url w Hwell)
            as (w' & r & ->).
          unfold ret.
          destruct (format_json_response_type r true) as (t & atts & ->).
          eauto. }
    exfalso. unfold _ALL_CMDS in Hall.
    rewrite !PyStrFacts.mem_app, Ecat, Enew, Elist, Hhelp in Hall.
    discriminate Hall.
Qed.

(** When the duplicate check finds a record, nothing is created. *)
Lemma add_found (now category item_object user_name : string) w :
  PyStr.mem (str_lower item_object) _ALL_CMDS = false ->
  let formula :=
    duplicate_check_formula (str_lower category)
      (str_capitalize item_object) in
  records_truthy
    (airtable_get (store w) "Items" "Current View" (Some formula)) = true ->
  _add_retrospective_item_and_get_response
    now category item_object user_name w
  = (log (Get "Items" "Current View" (Some formula)) w,
     inr (Text already_added_message)).
Proof.
  intros H formula Hfound.
  unfold _add_retrospective_item_and_get_response. rewrite H.
  unfold bind, client_get.
  change _AIRTABLE_RETRO_ITEMS_TABLE_ID with "Items"%string.
  change _AIRTABLE_RETRO_ITEMS_CURRENT_VIEW with "Current View"%string.
  fold formula. now rewrite Hfound.
Qed.

(** The store after a submission that is not rejected. *)
Lemma add_store (now category item_object user_name : string) w :
  PyStr.mem (str_lower item_object) _ALL_CMDS = false ->
  let formula :=
    duplicate_check_formula (str_lower category)
      (str_capitalize item_object) in
  let data :=
    {| Category := str_lower category;
       Object := str_capitalize item_object;
       Creator := user_name;
       Created_At := (now ++ "Z")%string;
       Reviewed_At := None |} in
  store (fst (_add_retrospective_item_and_get_response
                now category item_object user_name w))
  = if records_truthy
         (airtable_get (store w) "Items" "Current View" (Some formula))
    then store w
    else fst (airtable_create (store w) "Items" data).
Proof.
  intros H. cbv zeta.
  unfold _add_retrospective_item_and_get_response. rewrite H.
  unfold bind, client_get, client_create, ret, lift, log.
  cbn [store calls posted tasks].
  change _AIRTABLE_RETRO_ITEMS_TABLE_ID with "Items"%string.
  change _AIRTABLE_RETRO_ITEMS_CURRENT_VIEW with "Current View"%string.
  destruct (records_truthy _); cbn [fst store]; [reflexivity|].
  rewrite str_lower_idem.
  destruct (airtable_create _ _ _) as [s' [record|]]; cbn [fst store].
  - now destruct (_get_retrospective_items_attachments [record]).
  - reflexivity.
Qed.


(** The notification of a sweep that found items: it carries the
    attachments of the items fetched after the updates, and its text is
    empty when there is no attachment, the message of completion
    otherwise. *)
Theorem sweep_follow_up (now response_url : string) w
    (i : item) (items remaining : list item) (attachments : list attachment) :
  airtable_get (store w) "Items" "Current View" None = Some (i :: items) ->
  airtable_get (review_all (i :: items) (now ++ "Z")%string (store w))
    "Items" "Current View" None = Some remaining ->
  _get_retrospective_items_attachments remaining = inr attachments ->
  snd (_async_mark_retrospective_items_as_reviewed now response_url w)
  = inr tt
  /\ posted (fst (_async_mark_retrospective_items_as_reviewed
                    now response_url w))
     = posted w
       ++ [(response_url,
            {| fu_response_type := "in_channel";
               fu_text :=
                 match attachments with
                 | [] => EmptyString
                 | _ :: _ =>
                     ("All retrospective items marked as reviewed!"
                      ++ PyStr.newline
                      ++ "Here are the remaining 'try' items to complete:")%string
                 end;
               fu_attachments := Some attachments |})].
Proof.
  intros Hget Hagain Hformat.
  rewrite (sweep_found now response_url w i items Hget). cbv zeta.
  rewrite Hagain, Hformat. unfold requests_post. cbn [fst snd posted].
  split; [reflexivity|]. now destruct attachments.
Qed.

End HandlerFacts.

(** * Further properties of the program *)

(** ** The cleaned text and the parser, further *)

(** The text the parser works on has no white space character at either
    end, whichever of the white space characters of Unicode, and no two
    spaces in a row. *)
Theorem full_text_is_clean (text : string) :
  starts_with_space (full_text_of text) = false
  /\ ends_with_space (full_text_of text) = false
  /\ has_double_space (full_text_of text) = false.
Proof.
  destruct (full_text_shape text) as (Hs & He & Hd).
  rewrite TextFacts.starts_with_space_skip, Hs.
  rewrite TextFacts.ends_with_space_code, He.
  now repeat split.
Qed.

(** Cleaning a text that is already clean changes nothing. *)
Theorem full_text_idempotent (text : string) :
  full_text_of (full_text_of text) = full_text_of text.
Proof.
  destruct (full_text_shape text) as (Hs & He & Hd).
  unfold full_text_of at 1. unfold PyStr.strip.
  rewrite (TextFacts.lstrip_fixed _ Hs), (TextFacts.rstrip_fixed _ He).
  now apply TextFacts.collapse_spaces_fixed.
Qed.

Lemma split_space_join s :
  PyStr.join " " (fst (PyStr.split_space s) :: snd (PyStr.split_space s)) = s
  /\ PyStr.contains PyStr.space (fst (PyStr.split_space s)) = false.
Proof.
  induction s as [|c s [IH1 IH2]]; [now split|].
  cbn [PyStr.split_space].
  destruct (PyStr.split_space s) as [h t]. cbn [fst snd] in *.
  destruct (Ascii.eqb c PyStr.space) eqn:E; cbn [fst snd].
  - split; [|reflexivity].
    apply Ascii.eqb_eq in E. subst c.
    unfold PyStr.join in *.
    change (String PyStr.space (String.concat " " (h :: t))
            = String PyStr.space s).
    now rewrite IH1.
  - split.
    + unfold PyStr.join in *.
      transitivity (String c (String.concat " " (h :: t)));
        [now destruct t | now rewrite IH1].
    + cbn [PyStr.contains]. now rewrite E, IH2.
Qed.

(** [_get_command_action_and_params] loses nothing of the text: the
    action is the first word in lower case, and the text is that word
    alone, with no parameters, or the word, one space and the parameters,
    which keep their case. *)
Theorem action_and_params_rebuild_text {cm : CaseMapping}
    (command_text : string) :
  exists first,
    fst (_get_command_action_and_params command_text) = str_lower first
    /\ PyStr.contains PyStr.space first = false
    /\ (command_text = first
        /\ snd (_get_command_action_and_params command_text) = EmptyString
        \/ command_text
           = (first ++ " "
              ++ snd (_get_command_action_and_params command_text))%string).
Proof.
  unfold _get_command_action_and_params.
  destruct (split_space_join command_text) as [Hjoin Hfirst].
  destruct (PyStr.split_space command_text) as [first rest].
  cbn [fst snd] in *. exists first. split; [reflexivity|]. split; [exact Hfirst|].
  unfold PyStr.join in *. destruct rest as [|r rest].
  - left. split; [symmetry; exact Hjoin|reflexivity].
  - right. rewrite <- Hjoin at 1. reflexivity.
Qed.

(** ** The formula of the duplicate check, without quotes *)

Lemma replace_absent c new s :
  PyStr.contains c s = false -> PyStr.replace c new s = s.
Proof.
  induction s as [|d s IH]; [reflexivity|]. cbn [PyStr.contains PyStr.replace].
  intros H. apply orb_false_iff in H as [H1 H2].
  now rewrite H1, (IH H2).
Qed.

(** The formula of the duplicate check is the formula with escaped
    quotes exactly for the objects that hold no double quote. *)
Theorem formula_is_quoted_iff_no_quote (category item_object : string) :
  duplicate_check_formula category item_object
  = quoted_exact_match_formula category item_object
  <-> PyStr.contains PyStr.dquote item_object = false.
Proof.
  unfold duplicate_check_formula, quoted_exact_match_formula.
  rewrite escape_quotes_id. split.
  - intros H. destruct (PyStr.contains PyStr.dquote item_object) eqn:E;
      [|reflexivity].
    do 6 apply PyStrFacts.append_inj_l in H.
    apply (f_equal String.length) in H.
    rewrite !PyStrFacts.length_append in H.
    pose proof (PyStrFacts.length_replace_two PyStr.dquote PyStr.backslash
                  item_object E).
    lia.
  - intros H. now rewrite (replace_absent _ _ _ H).
Qed.

(** ** The configuration and the root endpoint *)

Lemma env_not_false v :
  env_not v = false <-> exists s, v = Some s /\ s <> EmptyString.
Proof.
  destruct v as [[|c s]|]; cbn; split; try discriminate.
  - intros (s & E & H). injection E as <-. contradiction.
  - intros _. exists (String c s). split; [reflexivity|discriminate].
  - reflexivity.
  - intros (s & E & _). discriminate E.
Qed.

(** Requests are processed exactly when the three settings are set and
    not empty: an empty value counts as a missing one. *)
Theorem setup_complete_iff (cfg : config) :
  _STEPS_TO_FINISH_SETUP cfg = None
  <-> (exists token base key,
         _SLACK_RETRO_TOKEN cfg = Some token /\ token <> EmptyString
         /\ _AIRTABLE_RETRO_BASE_ID cfg = Some base /\ base <> EmptyString
         /\ _AIRTABLE_RETRO_API_KEY cfg = Some key /\ key <> EmptyString).
Proof.
  unfold _STEPS_TO_FINISH_SETUP, _MISSING_ENV_VARIABLES. split.
  - intros H.
    destruct (env_not (_SLACK_RETRO_TOKEN cfg)) eqn:E1; [discriminate H|].
    destruct (env_not (_AIRTABLE_RETRO_BASE_ID cfg)) eqn:E2; [discriminate H|].
    destruct (env_not (_AIRTABLE_RETRO_API_KEY cfg)) eqn:E3; [discriminate H|].
    apply env_not_false in E1 as (t & ? & ?).
    apply env_not_false in E2 as (b & ? & ?).
    apply env_not_false in E3 as (k & ? & ?).
    exists t, b, k. tauto.
  - intros (t & b & k & H1 & H1' & H2 & H2' & H3 & H3').
    assert (env_not (_SLACK_RETRO_TOKEN cfg) = false) as ->
      by (apply env_not_false; eauto).
    assert (env_not (_AIRTABLE_RETRO_BASE_ID cfg) = false) as ->
      by (apply env_not_false; eauto).
    assert (env_not (_AIRTABLE_RETRO_API_KEY cfg) = false) as ->
      by (apply env_not_false; eauto).
    reflexivity.
Qed.

(** The setup message names exactly the settings that are unset or
    empty. *)
Theorem missing_variables_exact (cfg : config) (name : string) :
  In name (_MISSING_ENV_VARIABLES cfg)
  <-> (name = "SLACK_RETRO_TOKEN"%string
       /\ env_not (_SLACK_RETRO_TOKEN cfg) = true)
      \/ (name = "AIRTABLE_RETRO_BASE_ID"%string
          /\ env_not (_AIRTABLE_RETRO_BASE_ID cfg) = true)
      \/ (name = "AIRTABLE_RETRO_API_KEY"%string
          /\ env_not (_AIRTABLE_RETRO_API_KEY cfg) = true).
Proof.
  unfold _MISSING_ENV_VARIABLES.
  destruct (env_not (_SLACK_RETRO_TOKEN cfg)),
    (env_not (_AIRTABLE_RETRO_BASE_ID cfg)),
    (env_not (_AIRTABLE_RETRO_API_KEY cfg)); cbn;
    intuition (try discriminate; try congruence).
Qed.

(** ** The item formatter: no item, and sorted input *)

Section SortedFixed.
Context {A K : Type}.
Variable ltb : K -> K -> bool.
Variable key : A -> K.

Local Open Scope list_scope.

(** Sorting leaves a sorted list as it is. *)
Lemma sorted_of_sorted l :
  StronglySorted (key_le ltb key) l -> sorted ltb key l = l.
Proof.
  induction 1 as [|x l Hl IH Hx]; [reflexivity|].
  cbn [sorted fold_right]. fold (sorted ltb key l). rewrite IH.
  destruct l as [|y l]; [reflexivity|].
  cbn [insert_by]. inversion Hx as [|? ? Hxy _]; subst.
  unfold key_le in Hxy. now rewrite Hxy.
Qed.

End SortedFixed.

Lemma comprehension_inr {X Y : Type} (f : X -> exn + Y) l ys :
  comprehension f l = inr ys ->
  length ys = length l /\ forall x, In x l -> exists y, f x = inr y.
Proof.
  revert ys. induction l as [|x l IH]; cbn [comprehension]; intros ys H.
  - injection H as <-. split; [reflexivity|]. intros x [].
  - destruct (f x) as [e|y] eqn:E; [discriminate H|].
    destruct (comprehension f l) as [e|ys']; [discriminate H|].
    injection H as <-. destruct (IH ys' eq_refl) as [Hlen Hall].
    split; [cbn; now rewrite Hlen|].
    intros z [<- | Hz]; [now exists y|now apply Hall].
Qed.

Section FormatterMore.
Context {cm : CaseMapping}.

(** The formatter gives no attachment only for no item. *)
Theorem formatter_empty_iff (items : list item) :
  _get_retrospective_items_attachments items = inr [] <-> items = [].
Proof.
  split; [|now intros ->].
  intros H.
  destruct (formatter_groups items) as (categories & _ & Hin & Hg).
  unfold _get_retrospective_items_attachments in H. cbv zeta in H.
  rewrite Hg in H. apply comprehension_inr in H as [H _].
  rewrite length_map in H. destruct categories; [|discriminate H].
  destruct items as [|it items]; [reflexivity|].
  destruct (proj2 (Hin (category_of it)) (or_introl eq_refl)).
Qed.

(** Sorting the items by category beforehand does not change the
    attachments, nor the exception. *)
Theorem formatter_of_sorted (items : list item) :
  _get_retrospective_items_attachments (sorted PyStr.ltb category_of items)
  = _get_retrospective_items_attachments items.
Proof.
  unfold _get_retrospective_items_attachments. cbv zeta.
  rewrite (sorted_of_sorted PyStr.ltb category_of
             (sorted PyStr.ltb category_of items)); [reflexivity|].
  apply sorted_is_sorted.
  - exact StrOrder.ltb_irrefl.
  - exact StrOrder.ltb_trans.
  - exact StrOrder.ltb_total.
Qed.

End FormatterMore.

(** ** The dispatcher, branch by branch *)

Section DispatchFacts.
Context {S : Type} {client : Airtable S} {cm : CaseMapping}.
Implicit Types (w : world S).

Local Open Scope list_scope.

(** [new] followed by a text writes nothing and starts no sweep: the
    reply asks whether a [good] item was meant. *)
Theorem new_with_text_changes_nothing
    (cfg : config) (now : string) (form : list (string * string)) w
    (user_name slash_command response_url text params : string) :
  accepted cfg form user_name slash_command response_url text ->
  command_action_and_params slash_command (full_text_of text)
  = ("new"%string, params) ->
  params <> EmptyString ->
  handle_slack_notification cfg now form w
  = (w, inr (JsonResponse
               {| response_type := "in_channel";
                  msg_text :=
                    ("Oops, did you mean " ++ PyStr.dq ++ "/retro good "
                     ++ params ++ PyStr.dq ++ "?")%string;
                  msg_attachments := [] |} 200)).
Proof.
  intros H Hparse Hparams.
  rewrite (handler_accepted cfg now form w _ _ _ _ H), Hparse.
  destruct params as [|c params]; [contradiction|]. reflexivity.
Qed.

(** On the hosting platform, where the name of the function is set,
    [new] alone hands one sweep to the task runner, with the response URL
    of the request, and replies at once: the handler itself makes no call
    on the client and posts nothing. *)
Theorem new_alone_schedules_sweep
    (cfg : config) (now : string) (form : list (string * string)) w
    (user_name slash_command response_url text : string) :
  accepted cfg form user_name slash_command response_url text ->
  env_not (_AWS_LAMBDA_FUNCTION_NAME cfg) = false ->
  command_action_and_params slash_command (full_text_of text)
  = ("new"%string, EmptyString) ->
  handle_slack_notification cfg now form w
  = ({| store := store w; calls := calls w; posted := posted w;
        tasks := tasks w ++ [response_url] |},
     inr (JsonResponse
            {| response_type := "in_channel";
               msg_text :=
                 "Marking all current retrospective items as reviewed...";
               msg_attachments := [] |} 200)).
Proof.
  intros H Hmode Hparse.
  rewrite (handler_accepted cfg now form w _ _ _ _ H), Hparse.
  cbn [PyStr.mem existsb String.eqb Ascii.eqb Bool.eqb orb
       _CATEGORY_CMDS _GOOD_CMDS _BAD_CMDS _TRY_CMDS _LIST_CMDS _NEW_CMDS app
       PyStr.truthy].
  unfold _mark_retrospective_items_as_reviewed, call_task, bind.
  rewrite Hmode. reflexivity.
Qed.

(** A help action, which every unknown command becomes, leaves the
    world as it was and replies with the usage text, written with the
    slash command of the request. *)
Theorem help_changes_nothing
    (cfg : config) (now : string) (form : list (string * string)) w
    (user_name slash_command response_url text : string) :
  accepted cfg form user_name slash_command response_url text ->
  PyStr.mem
    (fst (command_action_and_params slash_command (full_text_of text)))
    _HELP_CMDS = true ->
  handle_slack_notification cfg now form w
  = (w, inr (JsonResponse
               {| response_type := "ephemeral";
                  msg_text := help_message slash_command;
                  msg_attachments := [] |} 200)).
Proof.
  intros H Hhelp.
  rewrite (handler_accepted cfg now form w _ _ _ _ H).
  destruct (command_action_and_params slash_command (full_text_of text))
    as [a p].
  cbn [fst] in Hhelp. apply mem_In in Hhelp. simpl in Hhelp.
  destruct Hhelp as [<- | [<- | []]]; reflexivity.
Qed.

Lemma form_lookup_has_key form k :
  (has_key form k = false -> form_lookup form k = inl (BadRequestKeyError k))
  /\ (has_key form k = true -> exists v, form_lookup form k = inr v).
Proof.
  induction form as [|[k' v] form [IH1 IH2]]; cbn [has_key form_lookup].
  - split; [reflexivity|discriminate].
  - destruct (String.eqb k' k); cbn [orb].
    + split; [discriminate|]. now exists v.
    + now split.
Qed.

(** A form that lacks one of the five fields is a bad request on the
    first field missing, in the order in which they are read; the world
    is left as it was.  A missing field other than the token is reached
    only with the configured token. *)
Theorem missing_field_is_bad_request
    (cfg : config) (now : string) (form : list (string * string)) w
    (k : string) :
  _STEPS_TO_FINISH_SETUP cfg = None ->
  first_missing form = Some k ->
  (forall token,
      form_lookup form "token" = inr token ->
      _SLACK_RETRO_TOKEN cfg = Some token) ->
  handle_slack_notification cfg now form w = (w, inl (BadRequestKeyError k)).
Proof.
  intros Hsteps Hmissing Hsecret.
  unfold handle_slack_notification. rewrite Hsteps.
  unfold first_missing in Hmissing. cbn [find] in Hmissing.
  destruct (has_key form "token") eqn:K1; cbn [negb] in Hmissing.
  2:{ injection Hmissing as <-.
      now rewrite (proj1 (form_lookup_has_key form "token") K1). }
  destruct (proj2 (form_lookup_has_key form "token") K1) as (token & Htoken).
  rewrite Htoken, bind_lift_inr, (Hsecret token Htoken), String.eqb_refl.
  cbn [negb].
  destruct (has_key form "user_name") eqn:K2; cbn [negb] in Hmissing.
  2:{ injection Hmissing as <-.
      now rewrite (proj1 (form_lookup_has_key form "user_name") K2). }
  destruct (proj2 (form_lookup_has_key form "user_name") K2) as (v2 & ->).
  rewrite bind_lift_inr.
  destruct (has_key form "command") eqn:K3; cbn [negb] in Hmissing.
  2:{ injection Hmissing as <-.
      now rewrite (proj1 (form_lookup_has_key form "command") K3). }
  destruct (proj2 (form_lookup_has_key form "command") K3) as (v3 & ->).
  rewrite bind_lift_inr.
  destruct (has_key form "response_url") eqn:K4; cbn [negb] in Hmissing.
  2:{ injection Hmissing as <-.
      now rewrite (proj1 (form_lookup_has_key form "response_url") K4). }
  destruct (proj2 (form_lookup_has_key form "response_url") K4) as (v4 & ->).
  rewrite bind_lift_inr.
  destruct (has_key form "text") eqn:K5; cbn [negb] in Hmissing.
  2:{ injection Hmissing as <-.
      now rewrite (proj1 (form_lookup_has_key form "text") K5). }
  discriminate Hmissing.
Qed.

(** ** Listing the items *)

(** With no item in the current view, or an answer without records,
    the list is the plain text that there is no item yet; the only call
    is the fetch. *)
Theorem list_of_empty_view w :
  records_truthy (airtable_get (store w) "Items" "Current View" None) = false ->
  _get_retrospective_items_response w
  = (log (Get "Items" "Current View" None) w,
     inr (Text "No retrospective items yet.")).
Proof.
  intros H.
  unfold _get_retrospective_items_response, bind, client_get.
  change _AIRTABLE_RETRO_ITEMS_TABLE_ID with "Items"%string.
  change _AIRTABLE_RETRO_ITEMS_CURRENT_VIEW with "Current View"%string.
  destruct (airtable_get (store w) "Items" "Current View" None)
    as [[|i items]|]; try discriminate H; reflexivity.
Qed.

(** With items of known categories in the view, the list is the header
    and one attachment for each category that occurs, in ascending order;
    the only call is the fetch. *)
Theorem list_of_known_categories w (i : item) (items : list item) :
  airtable_get (store w) "Items" "Current View" None = Some (i :: items) ->
  Forall (fun it => In (category_of it) ["good"; "bad"; "try"]%string)
    (i :: items) ->
  exists categories,
    StronglySorted (fun a b => PyStr.ltb a b = true) categories
    /\ (forall c, In c categories <-> In c (map category_of (i :: items)))
    /\ _get_retrospective_items_response w
       = (log (Get "Items" "Current View" None) w,
          inr (WithAttachments "Retrospective items:"
                 (map (expected_attachment (i :: items)) categories))).
Proof.
  intros Hget Hcat.
  destruct (formatter_of_known_categories (i :: items) Hcat)
    as (categories & Hs & Hin & E).
  exists categories. split; [exact Hs|]. split; [exact Hin|].
  unfold _get_retrospective_items_response, bind, client_get, lift.
  change _AIRTABLE_RETRO_ITEMS_TABLE_ID with "Items"%string.
  change _AIRTABLE_RETRO_ITEMS_CURRENT_VIEW with "Current View"%string.
  now rewrite Hget, E.
Qed.

(** ** Recording an item: the outcomes of the creation *)

(** When the duplicate check finds nothing and the store gives back no
    record, the reply is the message that the bot was unable to save the
    item; the lookup and the creation were both issued. *)
Theorem creation_failure_is_reported
    (now category item_object user_name : string) w (s' : S) :
  ~ In (str_lower item_object)
      ["good"; "bad"; "try"; "new"; "list"; "help"; "?"]%string ->
  let formula :=
    duplicate_check_formula (str_lower category)
      (str_capitalize item_object) in
  let data :=
    {| Category := str_lower category;
       Object := str_capitalize item_object;
       Creator := user_name;
       Created_At := (now ++ "Z")%string;
       Reviewed_At := None |} in
  records_truthy
    (airtable_get (store w) "Items" "Current View" (Some formula)) = false ->
  airtable_create (store w) "Items" data = (s', None) ->
  _add_retrospective_item_and_get_response
    now category item_object user_name w
  = ({| store := s';
        calls := calls w ++ [Get "Items" "Current View" (Some formula);
                             Create "Items" data];
        posted := posted w; tasks := tasks w |},
     inr (Text "Sorry, but *Retrospective Bot* was unable to save the retrospective item.")).
Proof.
  intros Hres formula data. subst formula data. intros Hlookup Hcreate.
  apply (mem_not_In _ _ALL_CMDS) in Hres.
  unfold _add_retrospective_item_and_get_response. rewrite Hres.
  unfold bind, client_get, client_create, ret, log.
  cbn [store calls posted tasks].
  change _AIRTABLE_RETRO_ITEMS_TABLE_ID with "Items"%string.
  change _AIRTABLE_RETRO_ITEMS_CURRENT_VIEW with "Current View"%string.
  rewrite Hlookup. cbn [store calls posted tasks].
  rewrite str_lower_idem, Hcreate.
  now rewrite <- app_assoc.
Qed.

(** When the store gives back the created record, of a known category,
    the reply is the header and one attachment for that record: the
    title [Good], [Bad] or [Try] of its category, its object after a
    bullet and a space, and the colour of its category. *)
Theorem creation_success_shows_the_record
    (now category item_object user_name : string) w (s' : S) (record : item) :
  ~ In (str_lower item_object)
      ["good"; "bad"; "try"; "new"; "list"; "help"; "?"]%string ->
  let formula :=
    duplicate_check_formula (str_lower category)
      (str_capitalize item_object) in
  let data :=
    {| Category := str_lower category;
       Object := str_capitalize item_object;
       Creator := user_name;
       Created_At := (now ++ "Z")%string;
       Reviewed_At := None |} in
  records_truthy
    (airtable_get (store w) "Items" "Current View" (Some formula)) = false ->
  airtable_create (store w) "Items" data = (s', Some record) ->
  In (Category (item_fields record)) ["good"; "bad"; "try"]%string ->
  _add_retrospective_item_and_get_response
    now category item_object user_name w
  = ({| store := s';
        calls := calls w ++ [Get "Items" "Current View" (Some formula);
                             Create "Items" data];
        posted := posted w; tasks := tasks w |},
     inr (WithAttachments "New retrospective item:"
            [ {| title := specified_title (Category (item_fields record));
                 text := bulleted [Object (item_fields record)];
                 color := expected_color (Category (item_fields record)) |} ])).
Proof.
  intros Hres formula data. subst formula data. intros Hlookup Hcreate Hcat.
  apply (mem_not_In _ _ALL_CMDS) in Hres.
  unfold _add_retrospective_item_and_get_response. rewrite Hres.
  unfold bind, client_get, client_create, ret, lift, log.
  cbn [store calls posted tasks].
  change _AIRTABLE_RETRO_ITEMS_TABLE_ID with "Items"%string.
  change _AIRTABLE_RETRO_ITEMS_CURRENT_VIEW with "Current View"%string.
  rewrite Hlookup. cbn [store calls posted tasks].
  rewrite str_lower_idem, Hcreate.
  unfold _get_retrospective_items_attachments. cbv zeta.
  cbn [sorted fold_right insert_by groupby groupby_from rev app comprehension].
  unfold attachment_of_group. cbn [map].
  change (category_of record) with (Category (item_fields record)).
  rewrite (color_of_known _ Hcat), (title_of_known _ Hcat).
  rewrite <- app_assoc. reflexivity.
Qed.

End DispatchFacts.

(** ** The root endpoint and the handler *)

(** The root page always has status 200.  It shows the check mark when
    the settings are complete; otherwise it shows, after the exclamation
    mark, the very message that every call of the webhook is answered
    with. *)
Theorem index_agrees_with_handler (cfg : config) :
  (_STEPS_TO_FINISH_SETUP cfg = None
   /\ index cfg = (index_page check_mark, 200))
  \/ (exists steps,
        index cfg = (index_page (exclamation_mark ++ steps), 200)
        /\ forall (S : Type) (client : Airtable S) (cm : CaseMapping)
                  now form (w : world S),
             handle_slack_notification cfg now form w
             = (w, inr (TextResponse steps 200))).
Proof.
  unfold index, handle_slack_notification.
  destruct (_STEPS_TO_FINISH_SETUP cfg) as [steps|].
  - right. exists steps. split; reflexivity.
  - left. split; reflexivity.
Qed.

(** ** The sweep: its calls, its failure, and the reference store *)

Section SweepFacts.
Context {S : Type} {client : Airtable S} {cm : CaseMapping}.
Implicit Types (w : world S).

Local Open Scope list_scope.

(** A sweep that finds items issues the fetch, one update for each item
    fetched, in their order, with the identifier of the item and one
    common date, and a second fetch; this holds also when the
    notification cannot be built. *)
Theorem sweep_calls_and_store (now response_url : string) w
    (i : item) (items : list item) :
  airtable_get (store w) "Items" "Current View" None = Some (i :: items) ->
  calls (fst (_async_mark_retrospective_items_as_reviewed now response_url w))
  = calls w
    ++ Get "Items" "Current View" None
       :: map (fun it => Update "Items" (id it) (now ++ "Z")%string)
            (i :: items)
    ++ [Get "Items" "Current View" None]
  /\ store (fst (_async_mark_retrospective_items_as_reviewed
                   now response_url w))
     = review_all (i :: items) (now ++ "Z")%string (store w).
Proof.
  intros Hget. rewrite (sweep_found now response_url w i items Hget).
  cbv zeta.
  destruct (airtable_get
              (review_all (i :: items) (now ++ "Z")%string (store w))
              "Items" "Current View" None) as [l|]; [|now split].
  destruct (_get_retrospective_items_attachments l);
    unfold requests_post; cbn [fst store calls]; now split.
Qed.

(** When the second fetch is answered by an error, the sweep raises
    [TypeError] after the updates and posts no notification. *)
Theorem sweep_without_records_raises (now response_url : string) w
    (i : item) (items : list item) :
  airtable_get (store w) "Items" "Current View" None = Some (i :: items) ->
  airtable_get (review_all (i :: items) (now ++ "Z")%string (store w))
    "Items" "Current View" None = None ->
  snd (_async_mark_retrospective_items_as_reviewed now response_url w)
  = inl TypeError
  /\ posted (fst (_async_mark_retrospective_items_as_reviewed
                    now response_url w)) = posted w.
Proof.
  intros Hget Hagain. rewrite (sweep_found now response_url w i items Hget).
  cbv zeta. rewrite Hagain. now split.
Qed.

End SweepFacts.

Module RefSweep.
Import RefStore.

Local Open Scope list_scope.

Lemma review_id k ts r : id (review k ts r) = id r.
Proof. unfold review. now destruct (String.eqb (id r) k). Qed.

Lemma review_by_id its ts r : id (review_by its ts r) = id r.
Proof.
  revert r. induction its as [|it its IH]; intros r; [reflexivity|].
  cbn [review_by fold_left]. fold (review_by its ts (review (id it) ts r)).
  now rewrite IH, review_id.
Qed.

Lemma review_stays_out k ts r :
  in_current_view r = false -> in_current_view (review k ts r) = false.
Proof. unfold review. now destruct (String.eqb (id r) k). Qed.

Lemma review_by_stays_out its ts r :
  in_current_view r = false -> in_current_view (review_by its ts r) = false.
Proof.
  revert r. induction its as [|it its IH]; intros r H; [exact H|].
  cbn [review_by fold_left]. apply IH. now apply review_stays_out.
Qed.

Lemma review_by_member its ts r it :
  In it its -> id it = id r -> in_current_view (review_by its ts r) = false.
Proof.
  revert r. induction its as [|it0 its IH]; intros r Hin Hid; [destruct Hin|].
  cbn [review_by fold_left]. destruct Hin as [-> | Hin].
  - apply review_by_stays_out. unfold review.
    now rewrite Hid, String.eqb_refl.
  - apply IH; [exact Hin|]. now rewrite review_id.
Qed.

Lemma rows_review_all its ts (s : t) :
  rows (review_all its ts s) = map (review_by its ts) (rows s).
Proof.
  revert s. induction its as [|it its IH]; intros s.
  - cbn. now rewrite map_id.
  - change (review_all (it :: its) ts s)
      with (review_all its ts (airtable_update s "Items" (id it) ts)).
    rewrite IH.
    change (rows (airtable_update s "Items" (id it) ts))
      with (map (review (id it) ts) (rows s)).
    now rewrite map_map.
Qed.

Lemma view_after_review_all ts (s : t) :
  filter in_current_view
    (rows (review_all (filter in_current_view (rows s)) ts s)) = [].
Proof.
  rewrite rows_review_all.
  generalize (fun r => proj2 (filter_In in_current_view r (rows s))).
  generalize (filter in_current_view (rows s)). intros its Hits.
  induction (rows s) as [|r l IH]; [reflexivity|].
  cbn [map filter].
  assert (in_current_view (review_by its ts r) = false) as ->.
  { destruct (in_current_view r) eqn:E.
    - apply (review_by_member its ts r r); [|reflexivity].
      apply Hits. split; [now left|exact E].
    - now apply review_by_stays_out. }
  apply IH. intros r' [H1 H2]. apply Hits. split; [now right|exact H2].
Qed.

Lemma get_view (s : t) :
  get s "Items" "Current View" None = Some (filter in_current_view (rows s)).
Proof. reflexivity. Qed.

End RefSweep.

Section ReferenceSweep.
Context {cm : CaseMapping}.

(** On the reference store a sweep leaves the current view empty,
    whatever was in it. *)
Theorem sweep_empties_the_view (now response_url : string)
    (w : world RefStore.t) :
  RefStore.get
    (store (fst (_async_mark_retrospective_items_as_reviewed
                   now response_url w)))
    "Items" "Current View" None = Some [].
Proof.
  destruct (filter RefStore.in_current_view (RefStore.rows (store w)))
    as [|i items] eqn:E.
  - rewrite sweep_nothing_found.
    + now rewrite RefSweep.get_view, E.
    + cbn [airtable_get RefStore.client]. now rewrite RefSweep.get_view, E.
  - rewrite (sweep_found now response_url w i items).
    2:{ cbn [airtable_get RefStore.client].
        now rewrite RefSweep.get_view, E. }
    cbv zeta. cbn [airtable_get RefStore.client].
    rewrite !RefSweep.get_view, <- E, RefSweep.view_after_review_all.
    change (_get_retrospective_items_attachments [])
      with (@inr exn (list attachment) []).
    unfold requests_post. cbn [fst store].
    now rewrite RefSweep.view_after_review_all.
Qed.

(** On the reference store, every sweep that finds items posts one
    notification, with the empty text and no attachment. *)
Theorem reference_sweep_posts_empty_text (now response_url : string)
    (w : world RefStore.t) :
  filter RefStore.in_current_view (RefStore.rows (store w)) <> [] ->
  posted (fst (_async_mark_retrospective_items_as_reviewed
                 now response_url w))
  = (posted w
     ++ [(response_url,
          {| fu_response_type := "in_channel";
             fu_text := EmptyString;
             fu_attachments := Some [] |})])%list.
Proof.
  intros Hview.
  destruct (filter RefStore.in_current_view (RefStore.rows (store w)))
    as [|i items] eqn:E; [contradiction|].
  rewrite (sweep_found now response_url w i items).
  2:{ cbn [airtable_get RefStore.client]. now rewrite RefSweep.get_view, E. }
  cbv zeta. cbn [airtable_get RefStore.client].
  rewrite RefSweep.get_view, <- E, RefSweep.view_after_review_all.
  reflexivity.
Qed.

(** Claim C1, on a run.  One item is in the current view; the sweep marks
    it as reviewed, the view is then empty, and the notification posted to
    the response URL has the empty string as its text: the completion
    message is lost with the empty list of attachments. *)
Theorem C1_completion_text_is_empty :
  _async_mark_retrospective_items_as_reviewed "2018-03-02T09:00:00.000"
    "https://hooks.example/cb" (RefStore.fresh_world Examples.one_item_store)
  = ({| store :=
          {| RefStore.rows :=
               [ {| id := "rec0";
                    item_fields :=
                      {| Category := "good"; Object := "London trip";
                         Creator := "alice";
                         Created_At := "2018-03-01T10:00:00.000Z";
                         Reviewed_At := Some "2018-03-02T09:00:00.000Z" |} |} ];
             RefStore.next_id := 1 |};
        calls :=
          [ Get "Items" "Current View" None;
            Update "Items" "rec0" "2018-03-02T09:00:00.000Z";
            Get "Items" "Current View" None ];
        posted :=
          [("https://hooks.example/cb",
            {| fu_response_type := "in_channel";
               fu_text := EmptyString;
               fu_attachments := Some [] |})];
        tasks := [] |}, inr tt).
Proof. reflexivity. Qed.

End ReferenceSweep.

(** ** Submitting twice to the reference store *)

Module RefStoreFacts.
Import PyStr RefStore.

Local Open Scope list_scope.

Lemma read_literal_plain s rest :
  contains dquote s = false ->
  contains backslash s = false ->
  read_literal (s ++ String dquote rest) = Some (s, rest).
Proof.
  induction s as [|c s IH]; cbn [append contains read_literal]; intros Hq Hb.
  - reflexivity.
  - apply orb_false_iff in Hq as [Hq1 Hq2].
    apply orb_false_iff in Hb as [Hb1 Hb2].
    rewrite Hq1, Hb1, (IH Hq2 Hb2). reflexivity.
Qed.

(** The store reads a formula made of plain texts as it was meant. *)
Lemma read_formula_plain category object :
  contains dquote category = false ->
  contains backslash category = false ->
  contains dquote object = false ->
  contains backslash object = false ->
  read_formula (duplicate_check_formula category object)
  = Some (category, object).
Proof.
  intros Hcq Hcb Hoq Hob.
  unfold duplicate_check_formula, read_formula.
  rewrite escape_quotes_id.
  cbn [append dq strip_prefix Ascii.eqb Bool.eqb dquote].
  rewrite (read_literal_plain category _ Hcq Hcb).
  cbn [append dq strip_prefix Ascii.eqb Bool.eqb dquote].
  rewrite (read_literal_plain object _ Hoq Hob).
  reflexivity.
Qed.

Lemma records_truthy_snoc (l : list item) it :
  records_truthy (Some (l ++ [it])) = true.
Proof. now destruct l. Qed.

(** The duplicate check finds a record of the same category and
    object, when both texts are plain. *)
Lemma lookup_after_create (s : t) (category object creator created : string) :
  contains dquote category = false ->
  contains backslash category = false ->
  contains dquote object = false ->
  contains backslash object = false ->
  let data :=
    {| Category := category; Object := object; Creator := creator;
       Created_At := created; Reviewed_At := None |} in
  records_truthy
    (get (fst (create s "Items" data)) "Items" "Current View"
       (Some (duplicate_check_formula category object))) = true.
Proof.
  intros Hcq Hcb Hoq Hob data.
  unfold get, create. cbn [String.eqb Ascii.eqb Bool.eqb known andb fst rows].
  rewrite (read_formula_plain category object Hcq Hcb Hoq Hob).
  rewrite !filter_app. cbn [filter in_current_view item_fields Reviewed_At data].
  unfold matches, category_of, object_of.
  cbn [item_fields Category Object data].
  rewrite !String.eqb_refl. cbn [andb app].
  apply records_truthy_snoc.
Qed.

(** On the reference store, submitting twice the same category and
    objects of the same capitalized form gives the second time the
    message that the item was already added, and no creation: this holds
    when the capitalized object holds neither a double quote nor a
    backslash, so that the store reads the formula. *)
Theorem resubmission_already_added {cm : CaseMapping}
    (now1 now2 category object1 object2 user1 user2 : string)
    (w : world t) :
  In category ["good"; "bad"; "try"] ->
  str_capitalize object1 = str_capitalize object2 ->
  contains dquote (str_capitalize object1) = false ->
  contains backslash (str_capitalize object1) = false ->
  ~ In (str_lower object1) ["good"; "bad"; "try"; "new"; "list"; "help"; "?"] ->
  ~ In (str_lower object2) ["good"; "bad"; "try"; "new"; "list"; "help"; "?"] ->
  let w1 :=
    fst (_add_retrospective_item_and_get_response
           now1 category object1 user1 w) in
  _add_retrospective_item_and_get_response now2 category object2 user2 w1
  = ({| store := store w1;
        calls :=
          calls w1
          ++ [Get "Items" "Current View"
                (Some (duplicate_check_formula category
                         (str_capitalize object1)))];
        posted := posted w1;
        tasks := tasks w1 |},
     inr (Text "This retrospective item has already been added!")).
Proof.
  intros Hcat Hcap Hoq Hob Hres1 Hres2 w1.
  apply (mem_not_In _ _ALL_CMDS) in Hres1, Hres2.
  assert (str_lower category = category) as Hlow.
  { destruct Hcat as [<- | [<- | [<- | []]]]; now rewrite str_lower_ascii. }
  assert (contains dquote category = false
          /\ contains backslash category = false) as [Hcq Hcb].
  { destruct Hcat as [<- | [<- | [<- | []]]]; now split. }
  rewrite (add_found now2 category object2 user2 w1 Hres2).
  - rewrite Hlow, <- Hcap. reflexivity.
  - subst w1. rewrite (add_store now1 category object1 user1 w Hres1).
    rewrite <- Hcap, Hlow.
    cbn [airtable_get airtable_create client].
    destruct (records_truthy
                (get (store w) "Items" "Current View"
                   (Some (duplicate_check_formula category
                            (str_capitalize object1))))) eqn:E.
    + exact E.
    + now apply lookup_after_create.
Qed.

End RefStoreFacts.

(** * Runs that meet the hypotheses above

    The runs are on ASCII texts, with the case mapping [ascii_case]. *)

#[local] Existing Instance ascii_case.

Local Open Scope list_scope.

Ltac solve_accepted :=
  repeat split; try reflexivity; eexists; split; reflexivity.

(** A category outside the mapping of colours raises [KeyError]. *)
Example formatter_unknown_category :
  _get_retrospective_items_attachments
    [ {| id := "rec0"; item_fields := Examples.new_item "Good" "x" |} ]
  = inl (KeyError "Good").
Proof. reflexivity. Qed.

(** A text between two no-break spaces is cleaned of them. *)
Example full_text_without_no_break_spaces :
  full_text_of (Examples.nbsp ++ "list" ++ Examples.nbsp) = "list"%string.
Proof. reflexivity. Qed.

Lemma C2_blank_text_gives_help_witness :
  fst (command_action_and_params "/retro"
         (full_text_of (" " ++ Examples.nbsp ++ "  ")))
  = "help"%string.
Proof.
  apply (C2_blank_text_gives_help "/retro" (" " ++ Examples.nbsp ++ "  "));
    reflexivity.
Defined.

(** The example of the specification: the titles are [Bad], [Good],
    [Try], and the two [good] items keep their order. *)
Lemma C3_attachments_grouped_sorted_stable_witness :
  _get_retrospective_items_attachments Examples.four_items
  = inr Examples.four_attachments.
Proof.
  apply (C3_attachments_grouped_sorted_stable Examples.four_items).
  repeat (constructor; [unfold known_category; simpl; tauto|]). constructor.
Defined.

Lemma C4_reserved_term_rejected_witness :
  _add_retrospective_item_and_get_response
    "2018-03-01T10:00:00.000" "good" "List" "alice"
    (RefStore.fresh_world RefStore.empty)
  = (RefStore.fresh_world RefStore.empty,
     inr (Text "Sorry, but *Retrospective Bot* can't save *List* because it's a reserved term.")).
Proof.
  apply (C4_reserved_term_rejected "2018-03-01T10:00:00.000" "good" "List"
           "alice" (RefStore.fresh_world RefStore.empty)).
  simpl. tauto.
Defined.


Lemma C6_create_receives_normalized_fields_witness :
  calls (fst (_add_retrospective_item_and_get_response
                "2018-03-01T10:00:00.000" "good" "london trip" "alice"
                (RefStore.fresh_world RefStore.empty)))
  = [ Get "Items" "Current View"
        (Some ("AND(Category = " ++ PyStr.dq ++ "good" ++ PyStr.dq
               ++ ", Object = " ++ PyStr.dq ++ "London trip" ++ PyStr.dq
               ++ ")")%string);
      Create "Items"
        {| Category := "good"; Object := "London trip"; Creator := "alice";
           Created_At := "2018-03-01T10:00:00.000Z"; Reviewed_At := None |} ].
Proof.
  refine (proj1 (C6_create_receives_normalized_fields
                   "2018-03-01T10:00:00.000" "good" "london trip" "alice"
                   (RefStore.fresh_world RefStore.empty) _)).
  simpl. intuition discriminate.
Defined.

(** The answers of the reference store with one [good] item are well
    formed. *)
Lemma one_item_store_well_formed reviewed_at :
  answers_well_formed reviewed_at Examples.one_item_store.
Proof.
  split.
  - intros items H. cbn in H. injection H as <-. split.
    + repeat constructor.
    + exists []. split; [|constructor].
      reflexivity.
  - intros data s' record H. cbn in H. injection H as _ <-. reflexivity.
Qed.

Lemma C7_help_is_ephemeral_others_in_channel_witness :
  handle_slack_notification Examples.complete_config
    "2018-03-01T10:00:00.000"
    (Examples.slack_form "s3cret" "/retro" "what now")
    (RefStore.fresh_world RefStore.empty)
  = (RefStore.fresh_world RefStore.empty,
     inr (JsonResponse
            {| response_type := "ephemeral";
               msg_text := help_message "/retro";
               msg_attachments := [] |} 200))
  /\ exists w' reply_text attachments,
       handle_slack_notification Examples.complete_config
         "2018-03-01T10:00:00.000"
         (Examples.slack_form "s3cret" "/retro"
            (Examples.nbsp ++ "list" ++ Examples.nbsp))
         (RefStore.fresh_world Examples.one_item_store)
       = (w', inr (JsonResponse
                     {| response_type := "in_channel";
                        msg_text := reply_text;
                        msg_attachments := attachments |} 200)).
Proof.
  split.
  - apply (C7_help_is_ephemeral_others_in_channel Examples.complete_config
             "2018-03-01T10:00:00.000"
             (Examples.slack_form "s3cret" "/retro" "what now")
             (RefStore.fresh_world RefStore.empty)
             "alice" "/retro" "https://hooks.example/cb" "what now");
      [solve_accepted | reflexivity].
  - apply (C7_help_is_ephemeral_others_in_channel Examples.complete_config
             "2018-03-01T10:00:00.000"
             (Examples.slack_form "s3cret" "/retro"
                (Examples.nbsp ++ "list" ++ Examples.nbsp))
             (RefStore.fresh_world Examples.one_item_store)
             "alice" "/retro" "https://hooks.example/cb"
             (Examples.nbsp ++ "list" ++ Examples.nbsp));
      [solve_accepted | reflexivity | apply one_item_store_well_formed].
Defined.

Lemma C8_setup_message_then_token_check_witness :
  handle_slack_notification Examples.incomplete_config
    "2018-03-01T10:00:00.000"
    (Examples.slack_form "s3cret" "/retro" "list")
    (RefStore.fresh_world Examples.one_item_store)
  = (RefStore.fresh_world Examples.one_item_store,
     inr (TextResponse
            ("Need to setup the following AWS Lambda function env variables:"
             ++ PyStr.newline ++ "['AIRTABLE_RETRO_BASE_ID']")%string 200))
  /\ handle_slack_notification Examples.complete_config
       "2018-03-01T10:00:00.000"
       (Examples.slack_form "guess" "/retro" "list")
       (RefStore.fresh_world Examples.one_item_store)
     = (RefStore.fresh_world Examples.one_item_store, inl (Abort 401)).
Proof.
  split.
  - apply (proj1 (C8_setup_message_then_token_check Examples.incomplete_config
                    "2018-03-01T10:00:00.000"
                    (Examples.slack_form "s3cret" "/retro" "list")
                    (RefStore.fresh_world Examples.one_item_store))).
    right. left. reflexivity.
  - refine (proj2 (C8_setup_message_then_token_check Examples.complete_config
                     "2018-03-01T10:00:00.000"
                     (Examples.slack_form "guess" "/retro" "list")
                     (RefStore.fresh_world Examples.one_item_store))
              _ _ _ "guess"%string _ _); try reflexivity.
    discriminate.
Defined.

Lemma C9_sweep_of_empty_view_witness :
  _async_mark_retrospective_items_as_reviewed "2018-03-02T09:00:00.000"
    "https://hooks.example/cb" (RefStore.fresh_world RefStore.empty)
  = ({| store := RefStore.empty;
        calls := [Get "Items" "Current View" None];
        posted :=
          [("https://hooks.example/cb",
            {| fu_response_type := "in_channel";
               fu_text := "All retrospective were already marked as reviewed!";
               fu_attachments := None |})];
        tasks := [] |}, inr tt).
Proof.
  apply (C9_sweep_of_empty_view "2018-03-02T09:00:00.000"
           "https://hooks.example/cb" (RefStore.fresh_world RefStore.empty)).
  reflexivity.
Defined.

Lemma C10_quotes_left_unescaped_witness :
  (forall s, escape_quotes s = s)
  /\ duplicate_check_formula "good" (str_capitalize Examples.say_hi)
     = ("AND(Category = " ++ PyStr.dq ++ "good" ++ PyStr.dq
        ++ ", Object = " ++ PyStr.dq ++ str_capitalize Examples.say_hi
        ++ PyStr.dq ++ ")")%string
  /\ duplicate_check_formula "good" (str_capitalize Examples.say_hi)
     <> quoted_exact_match_formula "good" (str_capitalize Examples.say_hi).
Proof.
  apply (C10_quotes_left_unescaped "good" (str_capitalize Examples.say_hi)).
  reflexivity.
Defined.

Lemma category_alias_is_action_witness :
  command_action_and_params "good" "new" = ("good", "new")%string.
Proof.
  apply (category_alias_is_action "good" "new"). reflexivity.
Defined.

Lemma new_with_text_changes_nothing_witness :
  handle_slack_notification Examples.complete_config "2018-03-01T10:00:00.000"
    (Examples.slack_form "s3cret" "/retro" "new  Sprint 12")
    (RefStore.fresh_world Examples.one_item_store)
  = (RefStore.fresh_world Examples.one_item_store,
     inr (JsonResponse
            {| response_type := "in_channel";
               msg_text :=
                 ("Oops, did you mean " ++ PyStr.dq ++ "/retro good "
                  ++ "Sprint 12" ++ PyStr.dq ++ "?")%string;
               msg_attachments := [] |} 200)).
Proof.
  apply (new_with_text_changes_nothing Examples.complete_config
           "2018-03-01T10:00:00.000"
           (Examples.slack_form "s3cret" "/retro" "new  Sprint 12")
           (RefStore.fresh_world Examples.one_item_store)
           "alice" "/retro" "https://hooks.example/cb" "new  Sprint 12"
           "Sprint 12");
    [solve_accepted | reflexivity | discriminate].
Defined.

Lemma new_alone_schedules_sweep_witness :
  handle_slack_notification Examples.complete_config "2018-03-01T10:00:00.000"
    (Examples.slack_form "s3cret" "/retro" " NEW ")
    (RefStore.fresh_world Examples.one_item_store)
  = ({| store := Examples.one_item_store; calls := []; posted := [];
        tasks := ["https://hooks.example/cb"%string] |},
     inr (JsonResponse
            {| response_type := "in_channel";
               msg_text :=
                 "Marking all current retrospective items as reviewed...";
               msg_attachments := [] |} 200)).
Proof.
  apply (new_alone_schedules_sweep Examples.complete_config
           "2018-03-01T10:00:00.000"
           (Examples.slack_form "s3cret" "/retro" " NEW ")
           (RefStore.fresh_world Examples.one_item_store)
           "alice" "/retro" "https://hooks.example/cb" " NEW ");
    [solve_accepted | reflexivity | reflexivity].
Defined.

Lemma help_changes_nothing_witness :
  handle_slack_notification Examples.complete_config "2018-03-01T10:00:00.000"
    (Examples.slack_form "s3cret" "/retro" "remove everything")
    (RefStore.fresh_world Examples.one_item_store)
  = (RefStore.fresh_world Examples.one_item_store,
     inr (JsonResponse
            {| response_type := "ephemeral";
               msg_text := help_message "/retro";
               msg_attachments := [] |} 200)).
Proof.
  apply (help_changes_nothing Examples.complete_config
           "2018-03-01T10:00:00.000"
           (Examples.slack_form "s3cret" "/retro" "remove everything")
           (RefStore.fresh_world Examples.one_item_store)
           "alice" "/retro" "https://hooks.example/cb" "remove everything");
    [solve_accepted | reflexivity].
Defined.

Lemma missing_field_is_bad_request_witness :
  handle_slack_notification Examples.complete_config "2018-03-01T10:00:00.000"
    MoreExamples.form_without_text
    (RefStore.fresh_world Examples.one_item_store)
  = (RefStore.fresh_world Examples.one_item_store,
     inl (BadRequestKeyError "text")).
Proof.
  apply (missing_field_is_bad_request Examples.complete_config
           "2018-03-01T10:00:00.000" MoreExamples.form_without_text
           (RefStore.fresh_world Examples.one_item_store) "text");
    [reflexivity | reflexivity |].
  intros token H. cbn in H. injection H as <-. reflexivity.
Defined.

Lemma list_of_empty_view_witness :
  _get_retrospective_items_response (RefStore.fresh_world RefStore.empty)
  = (log (Get "Items" "Current View" None)
       (RefStore.fresh_world RefStore.empty),
     inr (Text "No retrospective items yet.")).
Proof.
  apply (list_of_empty_view (RefStore.fresh_world RefStore.empty)).
  reflexivity.
Defined.

Lemma list_of_known_categories_witness :
  exists categories,
    StronglySorted (fun a b => PyStr.ltb a b = true) categories
    /\ (forall c,
          In c categories <-> In c (map category_of Examples.four_items))
    /\ _get_retrospective_items_response
         (RefStore.fresh_world MoreExamples.four_items_store)
       = (log (Get "Items" "Current View" None)
            (RefStore.fresh_world MoreExamples.four_items_store),
          inr (WithAttachments "Retrospective items:"
                 (map (expected_attachment Examples.four_items) categories))).
Proof.
  apply (list_of_known_categories
           (RefStore.fresh_world MoreExamples.four_items_store)
           (hd {| id := EmptyString;
                  item_fields := Examples.new_item EmptyString EmptyString |}
               Examples.four_items)
           (tl Examples.four_items)).
  - reflexivity.
  - repeat (constructor; [simpl; tauto|]). constructor.
Defined.

Lemma creation_failure_is_reported_witness :
  _add_retrospective_item_and_get_response (client := OutageStore.client)
    "2018-03-01T10:00:00.000" "good" "london trip" "alice"
    (OutageStore.fresh_world MoreExamples.down)
  = ({| store := MoreExamples.down;
        calls :=
          [ Get "Items" "Current View"
              (Some (duplicate_check_formula "good" "London trip"));
            Create "Items"
              {| Category := "good"; Object := "London trip";
                 Creator := "alice";
                 Created_At := "2018-03-01T10:00:00.000Z";
                 Reviewed_At := None |} ];
        posted := []; tasks := [] |},
     inr (Text "Sorry, but *Retrospective Bot* was unable to save the retrospective item.")).
Proof.
  refine (creation_failure_is_reported (client := OutageStore.client)
            "2018-03-01T10:00:00.000" "good" "london trip" "alice"
            (OutageStore.fresh_world MoreExamples.down) MoreExamples.down
            _ _ _).
  - simpl. intuition discriminate.
  - reflexivity.
  - reflexivity.
Defined.

Lemma creation_success_shows_the_record_witness :
  _add_retrospective_item_and_get_response
    "2018-03-01T10:00:00.000" "good" "pairing went WELL" "alice"
    (RefStore.fresh_world RefStore.empty)
  = ({| store :=
          {| RefStore.rows :=
               [ {| id := "rec0";
                    item_fields :=
                      Examples.new_item "good" "Pairing went well" |} ];
             RefStore.next_id := 1 |};
        calls :=
          [ Get "Items" "Current View"
              (Some (duplicate_check_formula "good" "Pairing went well"));
            Create "Items" (Examples.new_item "good" "Pairing went well") ];
        posted := []; tasks := [] |},
     inr (WithAttachments "New retrospective item:"
            [ {| title := "Good";
                 text := (bullet ++ "Pairing went well")%string;
                 color := "good" |} ])).
Proof.
  refine (creation_success_shows_the_record
            "2018-03-01T10:00:00.000" "good" "pairing went WELL" "alice"
            (RefStore.fresh_world RefStore.empty)
            (fst (RefStore.create RefStore.empty "Items"
                    (Examples.new_item "good" "Pairing went well")))
            {| id := "rec0";
               item_fields := Examples.new_item "good" "Pairing went well" |}
            _ _ _ _).
  - simpl. intuition discriminate.
  - reflexivity.
  - reflexivity.
  - simpl. tauto.
Defined.

Lemma sweep_calls_and_store_witness :
  calls (fst (_async_mark_retrospective_items_as_reviewed
                "2018-03-02T09:00:00.000" "https://hooks.example/cb"
                (RefStore.fresh_world MoreExamples.four_items_store)))
  = [ Get "Items" "Current View" None;
      Update "Items" "rec0" "2018-03-02T09:00:00.000Z";
      Update "Items" "rec1" "2018-03-02T09:00:00.000Z";
      Update "Items" "rec2" "2018-03-02T09:00:00.000Z";
      Update "Items" "rec3" "2018-03-02T09:00:00.000Z";
      Get "Items" "Current View" None ].
Proof.
  refine (proj1 (sweep_calls_and_store
                   "2018-03-02T09:00:00.000" "https://hooks.example/cb"
                   (RefStore.fresh_world MoreExamples.four_items_store)
                   (hd {| id := EmptyString;
                          item_fields :=
                            Examples.new_item EmptyString EmptyString |}
                       Examples.four_items)
                   (tl Examples.four_items) _)).
  reflexivity.
Defined.

Lemma sweep_without_records_raises_witness :
  snd (_async_mark_retrospective_items_as_reviewed
         (client := OutageStore.client)
         "2018-03-02T09:00:00.000" "https://hooks.example/cb"
         (OutageStore.fresh_world MoreExamples.up_with_one_item))
  = inl TypeError
  /\ posted (fst (_async_mark_retrospective_items_as_reviewed
                    (client := OutageStore.client)
                    "2018-03-02T09:00:00.000" "https://hooks.example/cb"
                    (OutageStore.fresh_world MoreExamples.up_with_one_item)))
     = [].
Proof.
  apply (sweep_without_records_raises (client := OutageStore.client)
           "2018-03-02T09:00:00.000" "https://hooks.example/cb"
           (OutageStore.fresh_world MoreExamples.up_with_one_item)
           {| id := "rec0";
              item_fields := Examples.new_item "good" "London trip" |} []);
    reflexivity.
Defined.

Lemma sweep_follow_up_witness :
  snd (_async_mark_retrospective_items_as_reviewed
         (client := FrozenStore.client)
         "2018-03-02T09:00:00.000" "https://hooks.example/cb"
         (FrozenStore.fresh_world Examples.four_items))
  = inr tt
  /\ posted (fst (_async_mark_retrospective_items_as_reviewed
                    (client := FrozenStore.client)
                    "2018-03-02T09:00:00.000" "https://hooks.example/cb"
                    (FrozenStore.fresh_world Examples.four_items)))
     = [("https://hooks.example/cb"%string,
         {| fu_response_type := "in_channel";
            fu_text :=
              ("All retrospective items marked as reviewed!"
               ++ PyStr.newline
               ++ "Here are the remaining 'try' items to complete:")%string;
            fu_attachments :=
              Some Examples.four_attachments |})].
Proof.
  refine (sweep_follow_up (client := FrozenStore.client)
            "2018-03-02T09:00:00.000" "https://hooks.example/cb"
            (FrozenStore.fresh_world Examples.four_items)
            (hd {| id := EmptyString;
                   item_fields := Examples.new_item EmptyString EmptyString |}
                Examples.four_items)
            (tl Examples.four_items) Examples.four_items
            Examples.four_attachments _ _ _);
    reflexivity.
Defined.

Lemma resubmission_already_added_witness :
  let w1 :=
    fst (_add_retrospective_item_and_get_response
           "2018-03-01T10:00:00.000" "good" "london trip" "alice"
           (RefStore.fresh_world RefStore.empty)) in
  _add_retrospective_item_and_get_response
    "2018-03-01T10:05:00.000" "good" "LONDON TRIP" "bob" w1
  = ({| store := store w1;
        calls :=
          calls w1
          ++ [Get "Items" "Current View"
                (Some (duplicate_check_formula "good" "London trip"))];
        posted := posted w1;
        tasks := tasks w1 |},
     inr (Text "This retrospective item has already been added!")).
Proof.
  refine (RefStoreFacts.resubmission_already_added
            "2018-03-01T10:00:00.000" "2018-03-01T10:05:00.000" "good"
            "london trip" "LONDON TRIP" "alice" "bob"
            (RefStore.fresh_world RefStore.empty) _ _ _ _ _ _).
  - simpl. tauto.
  - reflexivity.
  - reflexivity.
  - reflexivity.
  - simpl. intuition discriminate.
  - simpl. intuition discriminate.
Defined.

Lemma reference_sweep_posts_empty_text_witness :
  posted (fst (_async_mark_retrospective_items_as_reviewed
                 "2018-03-02T09:00:00.000" "https://hooks.example/cb"
                 (RefStore.fresh_world MoreExamples.four_items_store)))
  = [("https://hooks.example/cb"%string,
      {| fu_response_type := "in_channel";
         fu_text := EmptyString;
         fu_attachments := Some [] |})].
Proof.
  apply (reference_sweep_posts_empty_text
           "2018-03-02T09:00:00.000" "https://hooks.example/cb"
           (RefStore.fresh_world MoreExamples.four_items_store)).
  discriminate.
Defined.
